(** * Blog capstone, part 3: the CRUD handlers of [main.py]

    A shallow embedding of the Flask application in [src/main.py]:
    the [BlogPost] table, the [CreatePostForm] WTForm, the route
    handlers [get_all_posts], [show_post], [about], [contact],
    [edit_post], [new_post] and [delete], and the URL map their
    [@app.route] decorators build.

    The handlers are written in a small state-and-exception monad over
    a [World] holding the committed rows of the table, the pending
    operations of the SQLAlchemy session of the current request and the
    server clock.  What the libraries do on behalf of the handlers
    (SQLite's rowid allocation and UNIQUE check, the session's flush on
    commit, WTForms' field processing and validation chain, Flask's
    [url_for]) is written out next to the place where the source calls
    it.  Two library functions are kept abstract: Python's [str.strip]
    and the regular expression behind [wtforms.validators.URL]. *)

From Stdlib Require Import NArith ZArith List String Ascii Bool Lia PeanoNat.
From Stdlib Require Import DecimalString DecimalPos Sorted.
Import ListNotations.

Local Open Scope N_scope.
Local Open Scope string_scope.
Local Open Scope list_scope.

(** ** The table: [class BlogPost(db.Model)] *)

Record BlogPost : Type := mkBlogPost {
  id : Z;             (* db.Column(db.Integer, primary_key=True) *)
  title : string;     (* db.Column(db.String(250), unique=True, nullable=False) *)
  subtitle : string;  (* db.Column(db.String(250), nullable=False) *)
  date : string;      (* db.Column(db.String(250), nullable=False) *)
  body : string;      (* db.Column(db.Text, nullable=False) *)
  author : string;    (* db.Column(db.String(250), nullable=False) *)
  img_url : string    (* db.Column(db.String(250), nullable=False) *)
}.

(** The columns an attribute assignment [blog_post.<column> = v] can name. *)
Inductive column : Type :=
| col_title | col_subtitle | col_date | col_body | col_author | col_img_url.

Definition set_column (c : column) (v : string) (r : BlogPost) : BlogPost :=
  match c with
  | col_title    => mkBlogPost (id r) v (subtitle r) (date r) (body r) (author r) (img_url r)
  | col_subtitle => mkBlogPost (id r) (title r) v (date r) (body r) (author r) (img_url r)
  | col_date     => mkBlogPost (id r) (title r) (subtitle r) v (body r) (author r) (img_url r)
  | col_body     => mkBlogPost (id r) (title r) (subtitle r) (date r) v (author r) (img_url r)
  | col_author   => mkBlogPost (id r) (title r) (subtitle r) (date r) (body r) v (img_url r)
  | col_img_url  => mkBlogPost (id r) (title r) (subtitle r) (date r) (body r) (author r) v
  end.

(** A transient [BlogPost(...)] instance: the six keyword arguments of
    the constructor call in [new_post]; the primary key is not set
    until the row is inserted. *)
Record NewBlogPost : Type := BlogPost_ {
  new_title : string;
  new_subtitle : string;
  new_date : string;
  new_body : string;
  new_author : string;
  new_img_url : string
}.

(** ** The clock and [strftime] *)

Record datetime : Type := mkDatetime { year : N; month : N; day : N }.

Definition digit (n : N) : ascii := ascii_of_N (48 + n).

(** [%m] and [%d]: zero-padded to two digits. *)
Definition pad2 (n : N) : string :=
  String (digit (n / 10)) (String (digit (n mod 10)) EmptyString).

(** [%Y]: the year with century, on four digits; the years of a
    [datetime] range from 1 to 9999. *)
Definition pad4 (n : N) : string :=
  String (digit (n / 1000))
    (String (digit (n / 100 mod 10))
       (String (digit (n / 10 mod 10))
          (String (digit (n mod 10)) EmptyString))).

(** [datetime.strftime], for the directives the application uses;
    every other character of the format is copied. *)
Fixpoint strftime (fmt : string) (t : datetime) : string :=
  match fmt with
  | EmptyString => EmptyString
  | String c rest =>
      match rest with
      | String d rest' =>
          if (c =? "%")%char then
            if (d =? "m")%char then pad2 (month t) ++ strftime rest' t
            else if (d =? "d")%char then pad2 (day t) ++ strftime rest' t
            else if (d =? "Y")%char then pad4 (year t) ++ strftime rest' t
            else String c (strftime rest t)
          else String c (strftime rest t)
      | EmptyString => String c EmptyString
      end
  end.

(** ** The world a request runs in *)

(** Operations the session has recorded and not yet flushed. *)
Inductive pending : Type :=
| sess_add (p : NewBlogPost)                   (* db.session.add(p) *)
| sess_set (pk : Z) (c : column) (v : string)  (* attribute set on a loaded row *)
| sess_delete (pk : Z).                        (* db.session.delete(row) *)

Record World : Type := mkWorld {
  db : list BlogPost;       (* committed rows of the table, in rowid order *)
  session : list pending;   (* unit of work of the current request *)
  clock : datetime          (* what dt.datetime.now() reads *)
}.

Inductive exn : Type :=
| AttributeError          (* attribute access on None *)
| IntegrityError          (* a constraint of the table refused a flush *)
| UnmappedInstanceError.  (* db.session.delete(None) *)

(** ** The handler monad: state passing with exceptions *)

Definition M (A : Type) : Type := World -> (A + exn) * World.

Definition ret {A : Type} (a : A) : M A := fun w => (inl a, w).

Definition raise {A : Type} (e : exn) : M A := fun w => (inr e, w).

Definition bind {A B : Type} (m : M A) (k : A -> M B) : M B :=
  fun w =>
    match m w with
    | (inl a, w') => k a w'
    | (inr e, w') => (inr e, w')
    end.

Declare Scope handler_scope.
Delimit Scope handler_scope with handler.
Notation "x <- m ;; k" := (bind m (fun x => k))
  (at level 100, m at next level, right associativity) : handler_scope.
Notation "m ;; k" := (bind m (fun _ => k))
  (at level 100, right associativity) : handler_scope.
Local Open Scope handler_scope.

(** ** The Post Store: queries and the session *)

(** [BlogPost.query.all()]: every committed row. *)
Definition query_all : M (list BlogPost) := fun w => (inl (db w), w).

(** Primary-key lookup in a list of rows. *)
Definition lookup (pk : Z) (rows : list BlogPost) : option BlogPost :=
  find (fun r => Z.eqb (id r) pk) rows.

(** [BlogPost.query.get(pk)]: the row with that primary key, or [None]. *)
Definition query_get (pk : Z) : M (option BlogPost) :=
  fun w => (inl (lookup pk (db w)), w).

(** [dt.datetime.now()]. *)
Definition datetime_now : M datetime := fun w => (inl (clock w), w).

Definition session_record (op : pending) : M unit :=
  fun w => (inl tt, mkWorld (db w) (session w ++ [op]) (clock w)).

(** [db.session.add(p)]. *)
Definition session_add (p : NewBlogPost) : M unit := session_record (sess_add p).

(** [db.session.delete(row)]: refuses [None]. *)
Definition session_delete (row : option BlogPost) : M unit :=
  match row with
  | Some r => session_record (sess_delete (id r))
  | None => raise UnmappedInstanceError
  end.

(** Reading an attribute of a value that may be [None]. *)
Definition getattr {A : Type} (row : option BlogPost) (attr : BlogPost -> A) : M A :=
  match row with
  | Some r => ret (attr r)
  | None => raise AttributeError
  end.

(** [row.<c> = v] on a row loaded through the session: the session
    tracks the change and writes it at the next commit. *)
Definition setattr (row : option BlogPost) (c : column) (v : string) : M unit :=
  match row with
  | Some r => session_record (sess_set (id r) c v)
  | None => raise AttributeError
  end.

(** The rowid SQLite gives to an inserted row of an INTEGER PRIMARY KEY
    table: 1 in an empty table, else one more than the largest in use. *)
Definition next_rowid (rows : list BlogPost) : Z :=
  match map id rows with
  | [] => 1%Z
  | i :: rest => (1 + fold_left Z.max rest i)%Z
  end.

(** UNIQUE(title), as INSERT and UPDATE check it. *)
Definition title_taken (t : string) (rows : list BlogPost) : bool :=
  existsb (fun r => title r =? t) rows.

Definition title_taken_by_other (pk : Z) (t : string) (rows : list BlogPost) : bool :=
  existsb (fun r => negb (Z.eqb (id r) pk) && (title r =? t)) rows.

Definition insert_row (p : NewBlogPost) (rows : list BlogPost) : BlogPost :=
  mkBlogPost (next_rowid rows) (new_title p) (new_subtitle p) (new_date p)
             (new_body p) (new_author p) (new_img_url p).

(** [UPDATE ... SET c = v WHERE id = pk], on one row. *)
Definition update_row (pk : Z) (c : column) (v : string) (r : BlogPost) : BlogPost :=
  if Z.eqb (id r) pk then set_column c v r else r.

(** One statement of a flush; [None] is a constraint violation. *)
Definition apply_pending (op : pending) (rows : list BlogPost) : option (list BlogPost) :=
  match op with
  | sess_add p =>
      if title_taken (new_title p) rows then None
      else Some (rows ++ [insert_row p rows])
  | sess_set pk c v =>
      match c with
      | col_title =>
          if title_taken_by_other pk v rows then None
          else Some (map (update_row pk c v) rows)
      | _ => Some (map (update_row pk c v) rows)
      end
  | sess_delete pk => Some (filter (fun r => negb (Z.eqb (id r) pk)) rows)
  end.

Fixpoint flush (ops : list pending) (rows : list BlogPost) : option (list BlogPost) :=
  match ops with
  | [] => Some rows
  | op :: ops' =>
      match apply_pending op rows with
      | Some rows' => flush ops' rows'
      | None => None
      end
  end.

(** [db.session.commit()]: flush the pending operations in one
    transaction; a constraint violation rolls all of it back and
    raises. *)
Definition session_commit : M unit :=
  fun w =>
    match flush (session w) (db w) with
    | Some rows => (inl tt, mkWorld rows [] (clock w))
    | None => (inr IntegrityError, mkWorld (db w) [] (clock w))
    end.

(** The store's create as [new_post] performs it:
    [db.session.add(new_post); db.session.commit()]. *)
Definition create (p : NewBlogPost) : M unit :=
  session_add p ;; session_commit.

(** ** Routes and responses *)

(** The view functions, with the arguments of their URL rules. *)
Inductive endpoint : Type :=
| ep_get_all_posts
| ep_show_post (index : Z)
| ep_about
| ep_contact
| ep_edit_post (post_id : Z)
| ep_new_post
| ep_delete (post_id : Z).

Definition string_of_Z (z : Z) : string := NilZero.string_of_int (Z.to_int z).

(** [url_for], from the [@app.route] rules. *)
Definition url_for (e : endpoint) : string :=
  match e with
  | ep_get_all_posts => "/"
  | ep_show_post index => "/post/" ++ string_of_Z index
  | ep_about => "/about"
  | ep_contact => "/contact"
  | ep_edit_post post_id => "/edit_post/" ++ string_of_Z post_id
  | ep_new_post => "/new-post"
  | ep_delete post_id => "/delete/" ++ string_of_Z post_id
  end.

(** ** The form: [class CreatePostForm(FlaskForm)] *)

(** The methods the two form routes accept. *)
Inductive http_method : Type := GET | POST.

Record request : Type := mkRequest {
  method : http_method;
  form : list (string * string);  (* request.form, in order *)
  csrf_valid : bool               (* the posted csrf_token matches the session's *)
}.

(** A bound field: its current value and the errors of the last
    validation.  A field with neither a submitted value nor a default
    holds the empty string. *)
Record Field : Type := mkField { data : string; errors : list string }.

(** The fields of the form, with the CSRF token every [FlaskForm]
    adds; the submit button has no validator and no handler reads it. *)
Module Form.
Record CreatePostForm : Type := mk {
  title : Field;
  subtitle : Field;
  author : Field;
  img_url : Field;
  body : Field;
  csrf_token : Field
}.
End Form.

(** [FlaskForm.is_submitted()]. *)
Definition is_submitted (req : request) : bool :=
  match method req with POST => true | GET => false end.

(** [request.form.getlist(name)[0]] when the key is present. *)
Fixpoint formdata_get (name : string) (fd : list (string * string)) : option string :=
  match fd with
  | [] => None
  | (k, v) :: fd' => if k =? name then Some v else formdata_get name fd'
  end.

(** [Field.process]: the default, overridden by the submitted value
    when the request is a submission that carries the field. *)
Definition process (req : request) (name : string) (default : string) : Field :=
  mkField
    (if is_submitted req then
       match formdata_get name (form req) with
       | Some v => v
       | None => default
       end
     else default)
    [].

(** [CreatePostForm(title=..., subtitle=..., author=..., img_url=..., body=...)];
    a call without keyword arguments passes empty defaults. *)
Definition CreatePostForm (req : request)
    (title subtitle author img_url body : string) : Form.CreatePostForm :=
  Form.mk (process req "title" title)
          (process req "subtitle" subtitle)
          (process req "author" author)
          (process req "img_url" img_url)
          (process req "body" body)
          (process req "csrf_token" "").

Inductive response : Type :=
| render_index (all_posts : list BlogPost)                 (* "index.html" *)
| render_post (post : option BlogPost)                     (* "post.html" *)
| render_about                                             (* "about.html" *)
| render_contact                                           (* "contact.html" *)
| render_make_post (form : Form.CreatePostForm) (new_post : bool)  (* "make-post.html" *)
| redirect (location : string).

(** What a validator does to the chain of its field. *)
Inductive verdict : Type :=
| passes
| ValidationError (message : string)   (* record the error, go on *)
| StopValidation (message : string).   (* record the error, stop the chain *)

(** [Field._run_validation_chain]: the errors of one field. *)
Fixpoint run_validation_chain (validators : list (Field -> verdict)) (f : Field)
  : list string :=
  match validators with
  | [] => []
  | v :: validators' =>
      match v f with
      | passes => run_validation_chain validators' f
      | ValidationError message => message :: run_validation_chain validators' f
      | StopValidation message => [message]
      end
  end.

Definition validate_field (validators : list (Field -> verdict)) (f : Field) : Field :=
  mkField (data f) (run_validation_chain validators f).

Definition has_no_errors (f : Field) : bool :=
  match errors f with [] => true | _ :: _ => false end.

Section Handlers.

(** Python's [str.strip()]. *)
Variable strip : string -> string.

(** The pattern and host-name check of [wtforms.validators.URL()]. *)
Variable url_match : string -> bool.

(** [DataRequired()]: the value is truthy and, being a string, is not
    blank: [field.data and field.data.strip()]. *)
Definition DataRequired (f : Field) : verdict :=
  if negb (data f =? "") && negb (strip (data f) =? "") then passes
  else StopValidation "This field is required.".

(** [URL()]. *)
Definition URL (f : Field) : verdict :=
  if url_match (data f) then passes else ValidationError "Invalid URL.".

(** The CSRF field of a [FlaskForm] checks its token. *)
Definition validate_csrf_token (req : request) (f : Field) : Field :=
  mkField (data f)
          (if csrf_valid req then [] else ["The CSRF token is invalid."]).

(** [form.validate()]: every field runs its validators (as listed in
    the class body); the form is valid when no field has an error. *)
Definition validate (req : request) (fm : Form.CreatePostForm)
  : bool * Form.CreatePostForm :=
  let title := validate_field [DataRequired] (Form.title fm) in
  let subtitle := validate_field [DataRequired] (Form.subtitle fm) in
  let author := validate_field [DataRequired] (Form.author fm) in
  let img_url := validate_field [DataRequired; URL] (Form.img_url fm) in
  let body := validate_field [DataRequired] (Form.body fm) in
  let csrf_token := validate_csrf_token req (Form.csrf_token fm) in
  (has_no_errors title && has_no_errors subtitle && has_no_errors author
     && has_no_errors img_url && has_no_errors body && has_no_errors csrf_token,
   Form.mk title subtitle author img_url body csrf_token).

(** [form.validate_on_submit()]: [is_submitted() and validate()]. *)
Definition validate_on_submit (req : request) (fm : Form.CreatePostForm)
  : bool * Form.CreatePostForm :=
  if is_submitted req then validate req fm else (false, fm).

(** ** The route handlers *)

(** [@app.route('/')] *)
Definition get_all_posts : M response :=
  posts <- query_all ;;
  ret (render_index posts).

(** The loop of [show_post]: the last row whose id is [index]. *)
Definition scan (index : Z) (posts : list BlogPost) : option BlogPost :=
  fold_left
    (fun requested_post blog_post =>
       if Z.eqb (id blog_post) index then Some blog_post else requested_post)
    posts None.

(** [@app.route("/post/<int:index>")] *)
Definition show_post (index : Z) : M response :=
  posts <- query_all ;;
  let requested_post := scan index posts in
  ret (render_post requested_post).

(** [@app.route("/about")] *)
Definition about : M response := ret render_about.

(** [@app.route("/contact")] *)
Definition contact : M response := ret render_contact.

(** [@app.route('/edit_post/<int:post_id>', methods=['GET', 'POST'])] *)
Definition edit_post (req : request) (post_id : Z) : M response :=
  blog_post <- query_get post_id ;;
  title_ <- getattr blog_post title ;;
  subtitle_ <- getattr blog_post subtitle ;;
  author_ <- getattr blog_post author ;;
  img_url_ <- getattr blog_post img_url ;;
  body_ <- getattr blog_post body ;;
  let form := CreatePostForm req title_ subtitle_ author_ img_url_ body_ in
  let (validated, form) := validate_on_submit req form in
  if validated then
    setattr blog_post col_title (data (Form.title form)) ;;
    setattr blog_post col_subtitle (data (Form.subtitle form)) ;;
    setattr blog_post col_author (data (Form.author form)) ;;
    setattr blog_post col_img_url (data (Form.img_url form)) ;;
    setattr blog_post col_body (data (Form.body form)) ;;
    session_commit ;;
    ret (redirect (url_for (ep_show_post post_id)))
  else
    ret (render_make_post form false).

(** [@app.route('/new-post', methods=['POST', 'GET'])] *)
Definition new_post (req : request) : M response :=
  let form := CreatePostForm req "" "" "" "" "" in
  let (validated, form) := validate_on_submit req form in
  if validated then
    now <- datetime_now ;;
    let new_post :=
      BlogPost_ (data (Form.title form))
                (data (Form.subtitle form))
                (strftime "%m %d, %Y" now)
                (data (Form.body form))
                (data (Form.author form))
                (data (Form.img_url form)) in
    session_add new_post ;;
    session_commit ;;
    ret (redirect (url_for ep_get_all_posts))
  else
    ret (render_make_post form true).

(** [@app.route('/delete/<int:post_id>')] *)
Definition delete (post_id : Z) : M response :=
  blog_post <- query_get post_id ;;
  session_delete blog_post ;;
  session_commit ;;
  ret (redirect (url_for ep_get_all_posts)).

End Handlers.

(** Serving one request: the handler runs on the committed rows with a
    fresh session; the answer is its response or the exception that
    escaped it, together with the rows committed afterwards. *)
Definition serve (h : M response) (rows : list BlogPost) (now : datetime)
  : (response + exn) * list BlogPost :=
  let (r, w) := h (mkWorld rows [] now) in (r, db w).

(** The primary-key and UNIQUE(title) constraints of the table. *)
Definition table_ok (rows : list BlogPost) : Prop :=
  NoDup (map id rows) /\ NoDup (map title rows).

(** What the five assignments of [edit_post] amount to on the row
    [pk]: the submitted columns change, [id] and [date] stay. *)
Definition overwrite (pk : Z) (fm : Form.CreatePostForm) (r : BlogPost) : BlogPost :=
  if Z.eqb (id r) pk then
    mkBlogPost (id r)
               (data (Form.title fm))
               (data (Form.subtitle fm))
               (date r)
               (data (Form.body fm))
               (data (Form.author fm))
               (data (Form.img_url fm))
  else r.

(** The errors a rendered form shows, field by field. *)
Definition form_errors (fm : Form.CreatePostForm) : list string :=
  errors (Form.title fm) ++ errors (Form.subtitle fm) ++ errors (Form.author fm)
    ++ errors (Form.img_url fm) ++ errors (Form.body fm)
    ++ errors (Form.csrf_token fm).

(** An ASCII decimal digit. *)
Definition is_digit (c : ascii) : bool :=
  (48 <=? nat_of_ascii c)%nat && (nat_of_ascii c <=? 57)%nat.

(** The numbers [k], [k + 1], ..., [k + count - 1]. *)
Fixpoint count_from (count : nat) (k : N) : list N :=
  match count with
  | O => []
  | S count' => k :: count_from count' (N.succ k)
  end.

Definition two_digits (s : string) : bool :=
  match list_ascii_of_string s with
  | [a; b] => is_digit a && is_digit b
  | _ => false
  end.

Definition four_digits (s : string) : bool :=
  match list_ascii_of_string s with
  | [a; b; c; d] => is_digit a && is_digit b && is_digit c && is_digit d
  | _ => false
  end.

(** The shape "MM DD, YYYY": two digits, a space, two digits, a comma,
    a space, four digits. *)
Definition is_MM_DD_YYYY (s : string) : bool :=
  match list_ascii_of_string s with
  | [m1; m2; s1; d1; d2; c; s2; y1; y2; y3; y4] =>
      is_digit m1 && is_digit m2 && (s1 =? " ")%char
      && is_digit d1 && is_digit d2 && (c =? ",")%char && (s2 =? " ")%char
      && is_digit y1 && is_digit y2 && is_digit y3 && is_digit y4
  | _ => false
  end.

(** The ranges of the components of a [datetime]. *)
Definition calendar_date (t : datetime) : Prop :=
  (1 <= year t <= 9999)%N /\ (1 <= month t <= 12)%N /\ (1 <= day t <= 31)%N.

(** ** The URL map and the application *)

(** What follows [prefix] in [s], when [s] starts with it. *)
Fixpoint strip_prefix (prefix s : string) : option string :=
  match prefix, s with
  | EmptyString, _ => Some s
  | String a prefix', String b s' =>
      if (a =? b)%char then strip_prefix prefix' s' else None
  | String _ _, EmptyString => None
  end.

(** The [int] converter of a URL rule: one or more decimal digits,
    read as a number. *)
Definition int_converter (s : string) : option Z :=
  match NilZero.uint_of_string s with
  | Some d => Some (Z.of_N (N.of_uint d))
  | None => None
  end.

(** A rule [prefix<int:argument>]. *)
Definition int_rule (prefix path : string) : option Z :=
  match strip_prefix prefix path with
  | Some segment => int_converter segment
  | None => None
  end.

(** The rules the [@app.route] decorators of the module register;
    [None] when none of them matches the path. *)
Definition route (path : string) : option endpoint :=
  if path =? "/" then Some ep_get_all_posts
  else if path =? "/about" then Some ep_about
  else if path =? "/contact" then Some ep_contact
  else if path =? "/new-post" then Some ep_new_post
  else
    match int_rule "/post/" path with
    | Some index => Some (ep_show_post index)
    | None =>
        match int_rule "/edit_post/" path with
        | Some post_id => Some (ep_edit_post post_id)
        | None =>
            match int_rule "/delete/" path with
            | Some post_id => Some (ep_delete post_id)
            | None => None
            end
        end
    end.

(** The [methods=] of each rule; a rule without the argument takes GET. *)
Definition methods (e : endpoint) : list http_method :=
  match e with
  | ep_edit_post _ => [GET; POST]
  | ep_new_post => [POST; GET]
  | _ => [GET]
  end.

Definition method_eqb (m1 m2 : http_method) : bool :=
  match m1, m2 with
  | GET, GET | POST, POST => true
  | _, _ => false
  end.

(** What the application answers to a request. *)
Inductive reply : Type :=
| answered (r : response)       (* the response of the view *)
| server_error (e : exn)        (* an exception escaped the view *)
| method_not_allowed            (* the rule does not take the method *)
| no_view.                      (* no rule of the module matches *)

Section Application.

Variable strip : string -> string.
Variable url_match : string -> bool.

(** The view function bound to an endpoint. *)
Definition view (e : endpoint) (req : request) : M response :=
  match e with
  | ep_get_all_posts => get_all_posts
  | ep_show_post index => show_post index
  | ep_about => about
  | ep_contact => contact
  | ep_edit_post post_id => edit_post strip url_match req post_id
  | ep_new_post => new_post strip url_match req
  | ep_delete post_id => delete post_id
  end.

(** One request through [app = Flask(__name__)]: match the path, check
    the method, run the view. *)
Definition flask_app (path : string) (req : request)
    (rows : list BlogPost) (now : datetime) : reply * list BlogPost :=
  match route path with
  | None => (no_view, rows)
  | Some e =>
      if existsb (method_eqb (method req)) (methods e) then
        match serve (view e req) rows now with
        | (inl r, rows') => (answered r, rows')
        | (inr e, rows') => (server_error e, rows')
        end
      else (method_not_allowed, rows)
  end.

(** A sequence of requests, each at its own time, from a given table. *)
Fixpoint run_requests (reqs : list (string * request * datetime))
    (rows : list BlogPost) : list BlogPost :=
  match reqs with
  | [] => rows
  | (path, req, now) :: reqs' => run_requests reqs' (snd (flask_app path req rows now))
  end.

End Application.

(** The rows are in the order of their ids, each id above the ones
    before it. *)
Definition rowid_order (rows : list BlogPost) : Prop :=
  StronglySorted Z.lt (map id rows).

(** The guarantee of the form on a stored post: the five submitted
    columns are non-empty and the image URL passed the URL validator. *)
Definition post_filled (url_match : string -> bool) (r : BlogPost) : Prop :=
  title r <> "" /\ subtitle r <> "" /\ author r <> "" /\ img_url r <> ""
  /\ body r <> "" /\ url_match (img_url r) = true.

(** ** Concrete instances for the examples *)

Definition is_space (c : ascii) : bool :=
  let n := nat_of_ascii c in
  ((9 <=? n)%nat && (n <=? 13)%nat) || ((28 <=? n)%nat && (n <=? 32)%nat).

Fixpoint lstrip (s : string) : string :=
  match s with
  | EmptyString => EmptyString
  | String c s' => if is_space c then lstrip s' else s
  end.

Fixpoint rstrip (s : string) : string :=
  match s with
  | EmptyString => EmptyString
  | String c s' =>
      match rstrip s' with
      | EmptyString => if is_space c then EmptyString else String c EmptyString
      | t => String c t
      end
  end.

(** [str.strip()] on strings of ASCII characters. *)
Definition ascii_strip (s : string) : string := rstrip (lstrip s).

(** A stand-in for the URL pattern: a scheme [http://] or [https://]
    followed by something. *)
Definition http_url (s : string) : bool :=
  (prefix "http://" s && (7 <? length s)%nat)
  || (prefix "https://" s && (8 <? length s)%nat).

(** ** Sample requests and tables *)

(** The submission of the specification's example scenario. *)
Definition hello_request : request :=
  mkRequest POST
    [("title", "Hello"); ("subtitle", "World"); ("author", "A");
     ("img_url", "https://x.com/i.png"); ("body", "text")]
    true.

(** The same submission with the author left empty. *)
Definition no_author_request : request :=
  mkRequest POST
    [("title", "Hello"); ("subtitle", "World"); ("author", "");
     ("img_url", "https://x.com/i.png"); ("body", "text")]
    true.

Definition get_request : request := mkRequest GET [] false.

(** A submission that carries the token and none of the five fields. *)
Definition token_only_request : request :=
  mkRequest POST [("csrf_token", "t")] true.

Definition today : datetime := mkDatetime 2021 3 7.

Definition first_post : BlogPost :=
  mkBlogPost 1 "First" "The first post" "03 01, 2021" "Some text" "B"
             "https://x.com/1.png".

Definition hello_post : BlogPost :=
  mkBlogPost 2 "Hello" "Earlier" "03 02, 2021" "Other text" "C"
             "https://x.com/2.png".

Definition one_post : list BlogPost := [first_post].

Definition two_posts : list BlogPost := [first_post; hello_post].

(** * Facts about the store *)

Section StoreFacts.

Implicit Types (rows : list BlogPost) (pk : Z) (r : BlogPost).

Lemma lookup_Some_inv pk rows r :
  lookup pk rows = Some r -> In r rows /\ id r = pk.
Proof.
  unfold lookup. intros H. apply find_some in H.
  destruct H as [Hin Heq]. apply Z.eqb_eq in Heq. now split.
Qed.

Lemma lookup_None_iff pk rows :
  lookup pk rows = None <-> ~ In pk (map id rows).
Proof.
  unfold lookup. induction rows as [|r rows IH]; simpl.
  - tauto.
  - destruct (Z.eqb_spec (id r) pk) as [E|E].
    + split; [discriminate | intros H; exfalso; apply H; now left].
    + rewrite IH. tauto.
Qed.

Lemma lookup_In_exists pk rows :
  In pk (map id rows) -> exists r, lookup pk rows = Some r.
Proof.
  intros Hin. destruct (lookup pk rows) as [r|] eqn:E.
  - now exists r.
  - apply lookup_None_iff in E. contradiction.
Qed.

(** With the primary key unique, the lookup finds any row that is there. *)
Lemma lookup_unique rows r :
  NoDup (map id rows) -> In r rows -> lookup (id r) rows = Some r.
Proof.
  unfold lookup. induction rows as [|r0 rows IH]; simpl; intros Hnd Hin.
  - contradiction.
  - inversion Hnd as [|? ? Hnotin Hnd']; subst.
    destruct Hin as [->|Hin].
    + now rewrite Z.eqb_refl.
    + destruct (Z.eqb_spec (id r0) (id r)) as [E|E].
      * exfalso. apply Hnotin. rewrite E. now apply in_map.
      * now apply IH.
Qed.

Lemma lookup_app pk rows rows2 :
  lookup pk (rows ++ rows2) =
    match lookup pk rows with
    | Some r => Some r
    | None => lookup pk rows2
    end.
Proof.
  unfold lookup. induction rows as [|r rows IH]; simpl; [reflexivity|].
  now destruct (Z.eqb (id r) pk).
Qed.

Lemma fold_max_ge (l : list Z) (a : Z) :
  (a <= fold_left Z.max l a)%Z /\
  (forall x, In x l -> x <= fold_left Z.max l a)%Z.
Proof.
  revert a. induction l as [|y l IH]; simpl; intros a.
  - split; [lia | tauto].
  - destruct (IH (Z.max a y)) as [H1 H2]. split; [lia|].
    intros x [->|Hx]; [lia | now apply H2].
Qed.

(** Every key in use is below the next rowid. *)
Lemma next_rowid_above rows pk :
  In pk (map id rows) -> (pk < next_rowid rows)%Z.
Proof.
  unfold next_rowid. destruct (map id rows) as [|i rest]; cbn [In].
  - tauto.
  - destruct (fold_max_ge rest i) as [H1 H2].
    intros [<-|Hin]; [lia | specialize (H2 _ Hin); lia].
Qed.

Lemma next_rowid_fresh rows : ~ In (next_rowid rows) (map id rows).
Proof. intros H. apply next_rowid_above in H. lia. Qed.

Lemma title_taken_iff t rows :
  title_taken t rows = true <-> In t (map title rows).
Proof.
  unfold title_taken. rewrite existsb_exists, in_map_iff.
  split; intros [r [H1 H2]]; exists r.
  - apply String.eqb_eq in H2. now split.
  - split; [assumption | now apply String.eqb_eq].
Qed.

Lemma title_taken_by_other_iff pk t rows :
  title_taken_by_other pk t rows = true <->
  exists r, In r rows /\ id r <> pk /\ title r = t.
Proof.
  unfold title_taken_by_other. rewrite existsb_exists.
  split; intros [r [Hin H]]; exists r.
  - apply andb_true_iff in H. destruct H as [H1 H2].
    apply negb_true_iff, Z.eqb_neq in H1. apply String.eqb_eq in H2. tauto.
  - destruct H as [H1 H2]. split; [assumption|].
    apply andb_true_iff. split.
    + now apply negb_true_iff, Z.eqb_neq.
    + now apply String.eqb_eq.
Qed.

(** The row an INSERT appends is the one a lookup of its key finds. *)
Lemma lookup_inserted rows p :
  lookup (next_rowid rows) (rows ++ [insert_row p rows]) = Some (insert_row p rows).
Proof.
  rewrite lookup_app.
  destruct (lookup (next_rowid rows) rows) as [r|] eqn:E.
  - apply lookup_Some_inv in E. destruct E as [Hin Hid].
    exfalso. apply (next_rowid_fresh rows). rewrite <- Hid. now apply in_map.
  - unfold lookup. simpl. now rewrite Z.eqb_refl.
Qed.

(** A DELETE removes the key and nothing else. *)
Lemma lookup_delete_same pk rows :
  lookup pk (filter (fun r => negb (Z.eqb (id r) pk)) rows) = None.
Proof.
  apply lookup_None_iff. rewrite in_map_iff. intros [r [Hid Hin]].
  apply filter_In in Hin. destruct Hin as [_ Hneq].
  apply negb_true_iff, Z.eqb_neq in Hneq. contradiction.
Qed.

Lemma lookup_delete_other pk pk' rows :
  pk' <> pk ->
  lookup pk' (filter (fun r => negb (Z.eqb (id r) pk)) rows) = lookup pk' rows.
Proof.
  intros Hne. unfold lookup. induction rows as [|r rows IH]; simpl; [reflexivity|].
  destruct (Z.eqb_spec (id r) pk) as [E|E]; simpl.
  - destruct (Z.eqb_spec (id r) pk'); [congruence | exact IH].
  - destruct (Z.eqb (id r) pk'); [reflexivity | exact IH].
Qed.

Lemma id_overwrite pk fm r : id (overwrite pk fm r) = id r.
Proof. unfold overwrite. now destruct (Z.eqb (id r) pk). Qed.

Lemma lookup_overwrite pk' pk fm rows :
  lookup pk' (map (overwrite pk fm) rows) =
    option_map (overwrite pk fm) (lookup pk' rows).
Proof.
  unfold lookup. induction rows as [|r rows IH]; simpl; [reflexivity|].
  rewrite id_overwrite. now destruct (Z.eqb (id r) pk').
Qed.

End StoreFacts.

(** * Facts about the form *)

Section FormFacts.

Variable strip : string -> string.
Variable url_match : string -> bool.

Lemma required_errors_empty f validators :
  data f = "" ->
  errors (validate_field (DataRequired strip :: validators) f) = ["This field is required."].
Proof.
  intros H. unfold validate_field. cbn [errors run_validation_chain].
  unfold DataRequired. rewrite H. reflexivity.
Qed.

Lemma required_no_errors f validators :
  has_no_errors (validate_field (DataRequired strip :: validators) f) = true ->
  data f <> "" /\ strip (data f) <> "".
Proof.
  unfold has_no_errors, validate_field, DataRequired. simpl.
  destruct (String.eqb_spec (data f) ""); simpl; [discriminate|].
  destruct (String.eqb_spec (strip (data f)) ""); simpl; [discriminate|].
  tauto.
Qed.

Lemma url_errors f :
  url_match (data f) = false ->
  has_no_errors (validate_field [DataRequired strip; URL url_match] f) = false.
Proof.
  unfold has_no_errors, validate_field, URL. simpl. intros ->.
  now destruct (DataRequired strip f).
Qed.

Lemma url_no_errors f :
  has_no_errors (validate_field [DataRequired strip; URL url_match] f) = true ->
  url_match (data f) = true.
Proof.
  intros H. destruct (url_match (data f)) eqn:E; [reflexivity|].
  rewrite (url_errors f E) in H. discriminate.
Qed.

(** What a form that passed [validate_on_submit] is known to satisfy. *)
Lemma validate_on_submit_true req fm :
  fst (validate_on_submit strip url_match req fm) = true ->
  method req = POST /\ csrf_valid req = true /\
  data (Form.title fm) <> "" /\ data (Form.subtitle fm) <> "" /\
  data (Form.author fm) <> "" /\ data (Form.img_url fm) <> "" /\
  data (Form.body fm) <> "" /\ url_match (data (Form.img_url fm)) = true.
Proof.
  unfold validate_on_submit, is_submitted.
  destruct (method req); [discriminate|].
  unfold validate. cbn [fst]. intros H.
  apply andb_true_iff in H. destruct H as [H Hcsrf].
  apply andb_true_iff in H. destruct H as [H Hbody].
  apply andb_true_iff in H. destruct H as [H Himg].
  apply andb_true_iff in H. destruct H as [H Hauthor].
  apply andb_true_iff in H. destruct H as [Htitle Hsubtitle].
  pose proof (url_no_errors _ Himg) as Hurl.
  apply required_no_errors in Htitle, Hsubtitle, Hauthor, Himg, Hbody.
  unfold has_no_errors, validate_csrf_token in Hcsrf. simpl in Hcsrf.
  destruct (csrf_valid req); [|discriminate]. tauto.
Qed.

(** A submitted form that did not validate carries an error. *)
Lemma validate_on_submit_false req fm :
  method req = POST ->
  fst (validate_on_submit strip url_match req fm) = false ->
  form_errors (snd (validate_on_submit strip url_match req fm)) <> [].
Proof.
  unfold validate_on_submit, is_submitted. intros ->.
  unfold validate, form_errors. cbn [fst snd Form.title Form.subtitle
    Form.author Form.img_url Form.body Form.csrf_token].
  unfold has_no_errors.
  intros H Hnil.
  repeat (apply app_eq_nil in Hnil; destruct Hnil as [? Hnil]).
  repeat match goal with
         | X : errors ?f = [] |- _ => rewrite X in H; clear X
         end.
  discriminate.
Qed.

End FormFacts.

(** * What each handler computes *)

Section HandlerFacts.

Variable strip : string -> string.
Variable url_match : string -> bool.

Implicit Types (rows : list BlogPost) (now : datetime) (req : request).

(** The loop of [show_post] leaves its accumulator alone when no row
    carries the requested id. *)
Lemma scan_loop_skip index rows acc :
  ~ In index (map id rows) ->
  fold_left
    (fun requested_post blog_post =>
       if Z.eqb (id blog_post) index then Some blog_post else requested_post)
    rows acc = acc.
Proof.
  revert acc. induction rows as [|r rows IH]; simpl; intros acc Hnotin.
  - reflexivity.
  - destruct (Z.eqb_spec (id r) index) as [E|E].
    + exfalso. apply Hnotin. now left.
    + apply IH. intros H. apply Hnotin. now right.
Qed.

Lemma scan_loop_acc index rows acc :
  NoDup (map id rows) ->
  fold_left
    (fun requested_post blog_post =>
       if Z.eqb (id blog_post) index then Some blog_post else requested_post)
    rows acc =
  match lookup index rows with
  | Some r => Some r
  | None => acc
  end.
Proof.
  unfold lookup.
  revert acc. induction rows as [|r rows IH]; simpl; intros acc Hnd.
  - reflexivity.
  - inversion Hnd as [|? ? Hnotin Hnd']; subst.
    destruct (Z.eqb_spec (id r) index) as [E|E].
    + apply scan_loop_skip. now rewrite <- E.
    + now apply IH.
Qed.

Lemma scan_lookup index rows :
  NoDup (map id rows) -> scan index rows = lookup index rows.
Proof.
  intros Hnd. unfold scan. rewrite scan_loop_acc by assumption.
  now destruct (lookup index rows).
Qed.

Lemma serve_get_all_posts rows now :
  serve get_all_posts rows now = (inl (render_index rows), rows).
Proof. reflexivity. Qed.

Lemma serve_show_post index rows now :
  serve (show_post index) rows now = (inl (render_post (scan index rows)), rows).
Proof. reflexivity. Qed.

(** [new_post], case by case. *)
Lemma serve_new_post req rows now :
  serve (new_post strip url_match req) rows now =
    let (validated, fm) :=
      validate_on_submit strip url_match req (CreatePostForm req "" "" "" "" "") in
    if validated then
      let p := BlogPost_ (data (Form.title fm)) (data (Form.subtitle fm))
                         (strftime "%m %d, %Y" now) (data (Form.body fm))
                         (data (Form.author fm)) (data (Form.img_url fm)) in
      if title_taken (data (Form.title fm)) rows
      then (inr IntegrityError, rows)
      else (inl (redirect "/"), rows ++ [insert_row p rows])
    else (inl (render_make_post fm true), rows).
Proof.
  unfold serve, new_post.
  destruct (validate_on_submit strip url_match req _) as [validated fm].
  destruct validated; [|reflexivity].
  unfold bind, datetime_now, session_add, session_record, session_commit, ret.
  cbn [db session clock app flush apply_pending new_title].
  now destruct (title_taken (data (Form.title fm)) rows).
Qed.

(** The store's create, case by case. *)
Lemma create_run p rows now :
  create p (mkWorld rows [] now) =
    if title_taken (new_title p) rows
    then (inr IntegrityError, mkWorld rows [] now)
    else (inl tt, mkWorld (rows ++ [insert_row p rows]) [] now).
Proof.
  unfold create, bind, session_add, session_record, session_commit.
  cbn [db session clock app flush apply_pending].
  now destruct (title_taken (new_title p) rows).
Qed.

Lemma serve_edit_post_missing req post_id rows now :
  lookup post_id rows = None ->
  serve (edit_post strip url_match req post_id) rows now = (inr AttributeError, rows).
Proof.
  intros H. unfold serve, edit_post, bind, query_get. cbn [db]. now rewrite H.
Qed.

Lemma overwrite_columns pk fm rows :
  map (update_row pk col_body (data (Form.body fm)))
    (map (update_row pk col_img_url (data (Form.img_url fm)))
       (map (update_row pk col_author (data (Form.author fm)))
          (map (update_row pk col_subtitle (data (Form.subtitle fm)))
             (map (update_row pk col_title (data (Form.title fm))) rows))))
  = map (overwrite pk fm) rows.
Proof.
  rewrite !map_map. apply map_ext. intros r.
  unfold update_row, overwrite.
  destruct (Z.eqb (id r) pk) eqn:E; [|now rewrite ?E].
  repeat (cbn [set_column id title subtitle date body author img_url];
          rewrite E).
  reflexivity.
Qed.

(** [edit_post] on a stored post, case by case. *)
Lemma serve_edit_post_found req post_id rows now p :
  lookup post_id rows = Some p ->
  serve (edit_post strip url_match req post_id) rows now =
    let (validated, fm) :=
      validate_on_submit strip url_match req
        (CreatePostForm req (title p) (subtitle p) (author p) (img_url p) (body p)) in
    if validated then
      if title_taken_by_other post_id (data (Form.title fm)) rows
      then (inr IntegrityError, rows)
      else (inl (redirect (url_for (ep_show_post post_id))),
            map (overwrite post_id fm) rows)
    else (inl (render_make_post fm false), rows).
Proof.
  intros H. pose proof (lookup_Some_inv _ _ _ H) as [_ Hid].
  unfold serve, edit_post, bind, query_get. cbn [db]. rewrite H.
  cbn [getattr ret].
  destruct (validate_on_submit strip url_match req _) as [validated fm].
  destruct validated; [|reflexivity].
  unfold setattr, session_record, session_commit, ret.
  cbn [db session clock app flush apply_pending]. rewrite Hid.
  destruct (title_taken_by_other post_id (data (Form.title fm)) rows);
    [reflexivity|].
  cbn [db]. now rewrite overwrite_columns.
Qed.

Lemma serve_delete_missing post_id rows now :
  lookup post_id rows = None ->
  serve (delete post_id) rows now = (inr UnmappedInstanceError, rows).
Proof.
  intros H. unfold serve, delete, bind, query_get. cbn [db]. now rewrite H.
Qed.

Lemma serve_delete_found post_id rows now p :
  lookup post_id rows = Some p ->
  serve (delete post_id) rows now =
    (inl (redirect "/"), filter (fun r => negb (Z.eqb (id r) post_id)) rows).
Proof.
  intros H. pose proof (lookup_Some_inv _ _ _ H) as [_ Hid].
  unfold serve, delete, bind, query_get. cbn [db]. rewrite H.
  unfold session_delete, session_record, session_commit, ret.
  cbn [db session clock app flush apply_pending]. now rewrite Hid.
Qed.

(** The handlers keep the constraints of the table. *)
Lemma NoDup_map_filter {A B : Type} (f : A -> B) (keep : A -> bool) (l : list A) :
  NoDup (map f l) -> NoDup (map f (filter keep l)).
Proof.
  induction l as [|x l IH]; cbn [map filter]; intros Hnd; [constructor|].
  inversion Hnd as [|? ? Hnotin Hnd']; subst.
  destruct (keep x); cbn [map]; [|now apply IH].
  constructor; [|now apply IH].
  intros Hin. apply Hnotin. apply in_map_iff in Hin.
  destruct Hin as [y [Hy Hin]]. apply filter_In in Hin.
  rewrite <- Hy. apply in_map. tauto.
Qed.

Lemma overwrite_absent pk fm rows :
  ~ In pk (map id rows) -> map (overwrite pk fm) rows = rows.
Proof.
  induction rows as [|r rows IH]; cbn [map]; intros Hnotin; [reflexivity|].
  rewrite IH by (intros H; apply Hnotin; now right).
  unfold overwrite. destruct (Z.eqb_spec (id r) pk) as [E|E]; [|reflexivity].
  exfalso. apply Hnotin. now left.
Qed.

Lemma overwrite_titles pk fm rows :
  NoDup (map id rows) -> NoDup (map title rows) ->
  title_taken_by_other pk (data (Form.title fm)) rows = false ->
  NoDup (map title (map (overwrite pk fm) rows)).
Proof.
  induction rows as [|r rows IH]; cbn [map]; intros Hid Ht Hfree; [constructor|].
  inversion Hid as [|? ? Hid1 Hid2]; subst.
  inversion Ht as [|? ? Ht1 Ht2]; subst.
  unfold title_taken_by_other in Hfree. cbn [existsb] in Hfree.
  apply orb_false_iff in Hfree. destruct Hfree as [Hr Hrest].
  destruct (Z.eqb_spec (id r) pk) as [E|E].
  - rewrite overwrite_absent by now rewrite <- E.
    unfold overwrite. rewrite (proj2 (Z.eqb_eq _ _) E). cbn [title].
    constructor; [|exact Ht2].
    intros Hin. apply in_map_iff in Hin. destruct Hin as [r' [Hr' Hin]].
    assert (Hx : title_taken_by_other pk (data (Form.title fm)) rows = true).
    { apply title_taken_by_other_iff. exists r'. repeat split; try assumption.
      intros Heq. apply Hid1. rewrite E, <- Heq. now apply in_map. }
    unfold title_taken_by_other in Hx. congruence.
  - assert (Hhead : overwrite pk fm r = r).
    { unfold overwrite. now rewrite (proj2 (Z.eqb_neq _ _) E). }
    rewrite Hhead. constructor; [|now apply IH].
    cbn [negb andb] in Hr.
    apply String.eqb_neq in Hr.
    intros Hin. apply in_map_iff in Hin. destruct Hin as [r' [Hr' Hin]].
    apply in_map_iff in Hin. destruct Hin as [r0 [Hr0 Hin]]. subst r'.
    unfold overwrite in Hr'. destruct (Z.eqb (id r0) pk).
    + cbn [title] in Hr'. congruence.
    + apply Ht1. rewrite <- Hr'. now apply in_map.
Qed.

Lemma new_post_keeps_table_ok req rows now :
  table_ok rows -> table_ok (snd (serve (new_post strip url_match req) rows now)).
Proof.
  intros [Hid Ht]. rewrite serve_new_post.
  destruct (validate_on_submit strip url_match req _) as [validated fm].
  destruct validated; [|now split].
  destruct (title_taken (data (Form.title fm)) rows) eqn:E; [now split|].
  cbn [snd]. split; rewrite map_app; cbn [map insert_row id title new_title].
  - apply NoDup_app; [exact Hid | constructor; [intros [] | constructor] |].
    intros x Hx [<-|[]]. now apply (next_rowid_fresh rows).
  - apply NoDup_app; [exact Ht | constructor; [intros [] | constructor] |].
    intros x Hx [<-|[]]. apply title_taken_iff in Hx. congruence.
Qed.

Lemma edit_post_keeps_table_ok req post_id rows now :
  table_ok rows ->
  table_ok (snd (serve (edit_post strip url_match req post_id) rows now)).
Proof.
  intros [Hid Ht]. destruct (lookup post_id rows) as [p|] eqn:Hp.
  - rewrite (serve_edit_post_found req post_id rows now p Hp).
    destruct (validate_on_submit strip url_match req _) as [validated fm].
    destruct validated; [|now split].
    destruct (title_taken_by_other post_id (data (Form.title fm)) rows) eqn:E;
      [now split|].
    cbn [snd]. split.
    + rewrite map_map.
      rewrite (map_ext _ id (fun r => id_overwrite post_id fm r)). exact Hid.
    + now apply overwrite_titles.
  - rewrite serve_edit_post_missing by assumption. now split.
Qed.

Lemma delete_keeps_table_ok post_id rows now :
  table_ok rows -> table_ok (snd (serve (delete post_id) rows now)).
Proof.
  intros [Hid Ht]. destruct (lookup post_id rows) as [p|] eqn:Hp.
  - rewrite (serve_delete_found post_id rows now p Hp). cbn [snd].
    split; now apply NoDup_map_filter.
  - rewrite serve_delete_missing by assumption. now split.
Qed.

End HandlerFacts.

(** * Facts about the date stamp *)

Section DateFacts.

Lemma count_from_In (count : nat) (k x : N) :
  k <= x < k + N.of_nat count -> In x (count_from count k).
Proof.
  revert k. induction count as [|count IH]; intros k H; cbn [count_from].
  - lia.
  - destruct (N.eq_dec k x) as [->|Hne]; [now left|].
    right. apply IH. lia.
Qed.

(** A boolean property checked on every number of a range. *)
Lemma forall_range (P : N -> bool) (count k : N) :
  forallb P (count_from (N.to_nat count) k) = true ->
  forall x, k <= x < k + count -> P x = true.
Proof.
  intros H x Hx. rewrite forallb_forall in H. apply H.
  apply count_from_In. now rewrite N2Nat.id.
Qed.

Lemma is_digit_digit k : k <= 9 -> is_digit (digit k) = true.
Proof.
  intros H. apply (forall_range (fun x => is_digit (digit x)) 10 0).
  - reflexivity.
  - lia.
Qed.

Lemma pad2_two_digits n : n < 100 -> two_digits (pad2 n) = true.
Proof.
  intros H. unfold two_digits, pad2. cbn [list_ascii_of_string].
  rewrite !is_digit_digit; [reflexivity | |].
  - pose proof (N.mod_upper_bound n 10). lia.
  - assert (n / 10 < 10) by (apply N.Div0.div_lt_upper_bound; lia). lia.
Qed.

Lemma pad4_four_digits y : y <= 9999 -> four_digits (pad4 y) = true.
Proof.
  intros H. unfold four_digits, pad4. cbn [list_ascii_of_string].
  rewrite !is_digit_digit; [reflexivity | | | |].
  - pose proof (N.mod_upper_bound y 10). lia.
  - pose proof (N.mod_upper_bound (y / 10) 10). lia.
  - pose proof (N.mod_upper_bound (y / 100) 10). lia.
  - assert (y / 1000 < 10) by (apply N.Div0.div_lt_upper_bound; lia). lia.
Qed.

Lemma append_empty_r (s : string) : (s ++ "")%string = s.
Proof. induction s as [|c s IH]; simpl; [reflexivity | now rewrite IH]. Qed.

(** The format of [new_post], directive by directive. *)
Lemma strftime_m_d_Y t :
  strftime "%m %d, %Y" t
  = (pad2 (month t) ++ " " ++ pad2 (day t) ++ ", " ++ pad4 (year t))%string.
Proof. cbn [strftime Ascii.eqb Bool.eqb]. now rewrite append_empty_r. Qed.

Lemma shape_MM_DD_YYYY mm dd yyyy :
  two_digits mm = true -> two_digits dd = true -> four_digits yyyy = true ->
  is_MM_DD_YYYY (mm ++ " " ++ dd ++ ", " ++ yyyy)%string = true.
Proof.
  unfold two_digits, four_digits, is_MM_DD_YYYY.
  destruct mm as [|m1 [|m2 [|? ?]]];
    cbn [list_ascii_of_string append]; try discriminate.
  destruct dd as [|d1 [|d2 [|? ?]]];
    cbn [list_ascii_of_string append]; try discriminate.
  destruct yyyy as [|y1 [|y2 [|y3 [|y4 [|? ?]]]]];
    cbn [list_ascii_of_string append]; try discriminate.
  intros Hm Hd Hy.
  repeat match goal with
         | H : _ && _ = true |- _ => apply andb_true_iff in H; destruct H
         end.
  repeat match goal with
         | H : is_digit _ = true |- _ => rewrite H; clear H
         end.
  reflexivity.
Qed.

Lemma strftime_shape t :
  calendar_date t -> is_MM_DD_YYYY (strftime "%m %d, %Y" t) = true.
Proof.
  intros [Hy [Hm Hd]]. rewrite strftime_m_d_Y. apply shape_MM_DD_YYYY.
  - apply pad2_two_digits. lia.
  - apply pad2_two_digits. lia.
  - apply pad4_four_digits. lia.
Qed.

End DateFacts.

(** * The claims *)

(** C1 (round trip).  For a field set whose five fields are non-empty
    and whose image URL is well formed, creating the post and then
    getting it by the id the store assigned returns the submitted
    fields verbatim, together with that id and the stamped date.  The
    first two parts are the store's create as [new_post] performs it
    (it succeeds when the title is not taken, and whenever it succeeds
    the lookup returns the record); the last two are the handler
    itself: whenever [new_post] answers a submission carrying these
    fields with its redirect, the stored record is that same one, and
    it does answer so when the token is valid, no field is blank and
    the title is not taken. *)
Theorem create_get_roundtrip
    (strip : string -> string) (url_match : string -> bool)
    (rows : list BlogPost) (now : datetime) (t s a i b : string) :
  t <> "" -> s <> "" -> a <> "" -> i <> "" -> b <> "" -> url_match i = true ->
  let stamped := strftime "%m %d, %Y" now in
  let stored := mkBlogPost (next_rowid rows) t s stamped b a i in
  (title_taken t rows = false ->
   exists rows',
     create (BlogPost_ t s stamped b a i) (mkWorld rows [] now)
       = (inl tt, mkWorld rows' [] now)
     /\ lookup (next_rowid rows) rows' = Some stored)
  /\ (forall w',
        create (BlogPost_ t s stamped b a i) (mkWorld rows [] now) = (inl tt, w') ->
        lookup (next_rowid rows) (db w') = Some stored)
  /\ (forall fd csrf rows',
        formdata_get "title" fd = Some t ->
        formdata_get "subtitle" fd = Some s ->
        formdata_get "author" fd = Some a ->
        formdata_get "img_url" fd = Some i ->
        formdata_get "body" fd = Some b ->
        serve (new_post strip url_match (mkRequest POST fd csrf)) rows now
          = (inl (redirect "/"), rows') ->
        lookup (next_rowid rows) rows' = Some stored)
  /\ (forall fd,
        formdata_get "title" fd = Some t ->
        formdata_get "subtitle" fd = Some s ->
        formdata_get "author" fd = Some a ->
        formdata_get "img_url" fd = Some i ->
        formdata_get "body" fd = Some b ->
        strip t <> "" -> strip s <> "" -> strip a <> "" -> strip i <> "" ->
        strip b <> "" ->
        title_taken t rows = false ->
        serve (new_post strip url_match (mkRequest POST fd true)) rows now
          = (inl (redirect "/"), rows ++ [stored])).
Proof.
  intros Ht0 Hs0 Ha0 Hi0 Hb0 Hurl stamped stored.
  split; [|split; [|split]].
  - intros Hfree. exists (rows ++ [insert_row (BlogPost_ t s stamped b a i) rows]).
    rewrite create_run. cbn [new_title]. rewrite Hfree.
    split; [reflexivity | apply lookup_inserted].
  - intros w'. rewrite create_run. cbn [new_title].
    destruct (title_taken t rows); [discriminate|].
    intros H. injection H as <-. apply lookup_inserted.
  - intros fd csrf rows' Ht Hs Ha Hi Hb. rewrite serve_new_post.
    unfold validate_on_submit, is_submitted. cbn [method].
    unfold validate, CreatePostForm, process, is_submitted.
    cbn [method form Form.title Form.subtitle Form.author Form.img_url Form.body
         Form.csrf_token validate_field data].
    rewrite Ht, Hs, Ha, Hi, Hb.
    match goal with |- context [if ?c then _ else _] => destruct c end;
      [|discriminate].
    destruct (title_taken t rows); [discriminate|].
    intros H. injection H as <-. apply lookup_inserted.
  - intros fd Ht Hs Ha Hi Hb Ht1 Hs1 Ha1 Hi1 Hb1 Hfree. rewrite serve_new_post.
    unfold validate_on_submit, is_submitted. cbn [method].
    unfold validate, CreatePostForm, process, is_submitted.
    cbn [method form Form.title Form.subtitle Form.author Form.img_url Form.body
         Form.csrf_token validate_field data].
    rewrite Ht, Hs, Ha, Hi, Hb.
    unfold has_no_errors, validate_csrf_token, validate_field, DataRequired, URL.
    cbn [errors run_validation_chain data csrf_valid].
    apply String.eqb_neq in Ht0, Hs0, Ha0, Hi0, Hb0, Ht1, Hs1, Ha1, Hi1, Hb1.
    rewrite Ht0, Hs0, Ha0, Hi0, Hb0, Ht1, Hs1, Ha1, Hi1, Hb1, Hurl.
    cbn [negb andb errors run_validation_chain data]. now rewrite Hfree.
Qed.

Lemma create_get_roundtrip_witness :
  "Hello" <> "" /\ "World" <> "" /\ "A" <> "" /\ "https://x.com/i.png" <> ""
  /\ "text" <> "" /\ http_url "https://x.com/i.png" = true
  /\ serve (new_post ascii_strip http_url hello_request) one_post today
       = (inl (redirect "/"),
          one_post ++ [mkBlogPost 2 "Hello" "World" "03 07, 2021" "text" "A"
                                   "https://x.com/i.png"])
  /\ lookup 2 (snd (serve (new_post ascii_strip http_url hello_request) one_post today))
       = Some (mkBlogPost 2 "Hello" "World" "03 07, 2021" "text" "A"
                          "https://x.com/i.png").
Proof.
  repeat (split; [discriminate || reflexivity|]).
  refine (proj1 (proj2 (proj2 (create_get_roundtrip ascii_strip http_url one_post
            today "Hello" "World" "A" "https://x.com/i.png" "text" _ _ _ _ _ _)))
            (form hello_request) true
            (snd (serve (new_post ascii_strip http_url hello_request) one_post today))
            _ _ _ _ _ _);
    discriminate || reflexivity.
Defined.

(** C2 (duplicate title).  In any table, a create whose title is the
    title of a stored post adds no record: the store's create raises
    [IntegrityError] and leaves every row as it was; so does the
    handler when the submission validates, and when it does not the
    form is rendered again, the rows untouched in both cases. *)
Theorem duplicate_title_rejected
    (strip : string -> string) (url_match : string -> bool)
    (rows : list BlogPost) (now : datetime) (t : string) :
  In t (map title rows) ->
  (forall s d b a i,
      create (BlogPost_ t s d b a i) (mkWorld rows [] now)
        = (inr IntegrityError, mkWorld rows [] now))
  /\ (forall req validated fm,
        validate_on_submit strip url_match req (CreatePostForm req "" "" "" "" "")
          = (validated, fm) ->
        data (Form.title fm) = t ->
        serve (new_post strip url_match req) rows now
          = (if validated then inr IntegrityError
             else inl (render_make_post fm true),
             rows)).
Proof.
  intros Hdup. apply title_taken_iff in Hdup. split.
  - intros s d b a i. rewrite create_run. cbn [new_title]. now rewrite Hdup.
  - intros req validated fm Hv Ht. rewrite serve_new_post, Hv, Ht, Hdup.
    now destruct validated.
Qed.

Lemma duplicate_title_rejected_witness :
  In "Hello" (map title two_posts)
  /\ serve (new_post ascii_strip http_url hello_request) two_posts today
       = (inr IntegrityError, two_posts).
Proof.
  split.
  - right. left. reflexivity.
  - refine (proj2 (duplicate_title_rejected ascii_strip http_url two_posts today
              "Hello" _) hello_request true _ _ _).
    + right. left. reflexivity.
    + reflexivity.
    + reflexivity.
Defined.

(** C3, as amended (edit).  For a stored post and a submission that
    validates and whose title is not the title of a different post, the
    edit overwrites the five submitted columns of that row, keeps its
    [id] and [date], changes no other row, and answers with a redirect
    to the post's page; a lookup of the id afterwards returns the
    updated record. *)
Theorem edit_post_overwrites
    (strip : string -> string) (url_match : string -> bool)
    (rows : list BlogPost) (now : datetime) (req : request)
    (post_id : Z) (p : BlogPost) (fm : Form.CreatePostForm) :
  lookup post_id rows = Some p ->
  validate_on_submit strip url_match req
    (CreatePostForm req (title p) (subtitle p) (author p) (img_url p) (body p))
    = (true, fm) ->
  title_taken_by_other post_id (data (Form.title fm)) rows = false ->
  exists rows',
    serve (edit_post strip url_match req post_id) rows now
      = (inl (redirect (url_for (ep_show_post post_id))), rows')
    /\ lookup post_id rows'
       = Some (mkBlogPost (id p)
                          (data (Form.title fm)) (data (Form.subtitle fm))
                          (date p)
                          (data (Form.body fm)) (data (Form.author fm))
                          (data (Form.img_url fm)))
    /\ (forall pk, pk <> post_id -> lookup pk rows' = lookup pk rows)
    /\ map id rows' = map id rows
    /\ map date rows' = map date rows.
Proof.
  intros Hp Hv Hfree. exists (map (overwrite post_id fm) rows).
  rewrite (serve_edit_post_found _ _ _ _ _ _ p Hp), Hv, Hfree.
  destruct (lookup_Some_inv _ _ _ Hp) as [_ Hid].
  split; [reflexivity|]. split; [|split; [|split]].
  - rewrite lookup_overwrite, Hp. cbn [option_map]. unfold overwrite.
    apply Z.eqb_eq in Hid. now rewrite Hid.
  - intros pk Hne. rewrite lookup_overwrite.
    destruct (lookup pk rows) as [r|] eqn:E; [|reflexivity].
    destruct (lookup_Some_inv _ _ _ E) as [_ Hr]. cbn [option_map].
    unfold overwrite. destruct (Z.eqb_spec (id r) post_id); [congruence|reflexivity].
  - rewrite map_map. apply map_ext. intros r. apply id_overwrite.
  - rewrite map_map. apply map_ext. intros r. unfold overwrite.
    now destruct (Z.eqb (id r) post_id).
Qed.

Lemma edit_post_overwrites_witness :
  lookup 1 one_post = Some first_post
  /\ fst (validate_on_submit ascii_strip http_url hello_request
            (CreatePostForm hello_request (title first_post) (subtitle first_post)
               (author first_post) (img_url first_post) (body first_post))) = true
  /\ title_taken_by_other 1 "Hello" one_post = false
  /\ exists rows',
       serve (edit_post ascii_strip http_url hello_request 1) one_post today
         = (inl (redirect "/post/1"), rows')
       /\ lookup 1 rows'
          = Some (mkBlogPost 1 "Hello" "World" "03 01, 2021" "text" "A"
                             "https://x.com/i.png").
Proof.
  repeat (split; [reflexivity|]).
  destruct (edit_post_overwrites ascii_strip http_url one_post today
              hello_request 1 first_post
              (snd (validate_on_submit ascii_strip http_url hello_request
                      (CreatePostForm hello_request (title first_post)
                         (subtitle first_post) (author first_post)
                         (img_url first_post) (body first_post))))
              eq_refl eq_refl eq_refl) as [rows' [H1 [H2 _]]].
  exists rows'. split; [exact H1 | exact H2].
Defined.

(** C3 as stated fails: a submission that validates but carries the
    title of another post is refused by the UNIQUE constraint when the
    edit is committed; the request faults and the row keeps its old
    columns. *)
Lemma edit_post_title_collision :
  lookup 1 two_posts = Some first_post
  /\ fst (validate_on_submit ascii_strip http_url hello_request
            (CreatePostForm hello_request (title first_post) (subtitle first_post)
               (author first_post) (img_url first_post) (body first_post))) = true
  /\ serve (edit_post ascii_strip http_url hello_request 1) two_posts today
       = (inr IntegrityError, two_posts)
  /\ lookup 1 (snd (serve (edit_post ascii_strip http_url hello_request 1)
                      two_posts today))
       = Some first_post
  /\ title first_post <> "Hello".
Proof. repeat (split; [reflexivity|]). discriminate. Qed.

(** C4 (validation failure).  A submission that fails validation
    changes nothing in the table and is answered by the form page,
    rendered with the form that carries the errors, not by a redirect:
    for [new_post], and for [edit_post], which validates the form it
    built from the stored post (for an id that is not stored the table
    is unchanged as well).  An empty required field or an image URL the
    URL validator refuses makes the validation fail and leaves an error
    on that field. *)
Theorem invalid_submission_not_persisted
    (strip : string -> string) (url_match : string -> bool)
    (rows : list BlogPost) (now : datetime) (req : request) :
  method req = POST ->
  (forall fm,
      validate_on_submit strip url_match req (CreatePostForm req "" "" "" "" "")
        = (false, fm) ->
      serve (new_post strip url_match req) rows now
        = (inl (render_make_post fm true), rows)
      /\ form_errors fm <> [])
  /\ (forall post_id p fm,
        lookup post_id rows = Some p ->
        validate_on_submit strip url_match req
          (CreatePostForm req (title p) (subtitle p) (author p) (img_url p) (body p))
          = (false, fm) ->
        serve (edit_post strip url_match req post_id) rows now
          = (inl (render_make_post fm false), rows)
        /\ form_errors fm <> [])
  /\ (forall post_id,
        lookup post_id rows = None ->
        snd (serve (edit_post strip url_match req post_id) rows now) = rows)
  /\ (forall fm0,
        let fm := snd (validate_on_submit strip url_match req fm0) in
        (data (Form.title fm0) = "" ->
         fst (validate_on_submit strip url_match req fm0) = false
         /\ errors (Form.title fm) = ["This field is required."])
        /\ (data (Form.subtitle fm0) = "" ->
            fst (validate_on_submit strip url_match req fm0) = false
            /\ errors (Form.subtitle fm) = ["This field is required."])
        /\ (data (Form.author fm0) = "" ->
            fst (validate_on_submit strip url_match req fm0) = false
            /\ errors (Form.author fm) = ["This field is required."])
        /\ (data (Form.img_url fm0) = "" ->
            fst (validate_on_submit strip url_match req fm0) = false
            /\ errors (Form.img_url fm) = ["This field is required."])
        /\ (data (Form.body fm0) = "" ->
            fst (validate_on_submit strip url_match req fm0) = false
            /\ errors (Form.body fm) = ["This field is required."])
        /\ (url_match (data (Form.img_url fm0)) = false ->
            fst (validate_on_submit strip url_match req fm0) = false
            /\ errors (Form.img_url fm) <> [])).
Proof.
  intros Hpost. split; [|split; [|split]].
  - intros fm Hv. rewrite serve_new_post, Hv. split; [reflexivity|].
    pose proof (validate_on_submit_false strip url_match req
                  (CreatePostForm req "" "" "" "" "") Hpost) as H.
    rewrite Hv in H. now apply H.
  - intros post_id p fm Hp Hv.
    rewrite (serve_edit_post_found _ _ _ _ _ _ p Hp), Hv. split; [reflexivity|].
    pose proof (validate_on_submit_false strip url_match req
                  (CreatePostForm req (title p) (subtitle p) (author p)
                     (img_url p) (body p)) Hpost) as H.
    rewrite Hv in H. now apply H.
  - intros post_id Hmiss. now rewrite serve_edit_post_missing.
  - intros fm0. unfold validate_on_submit, is_submitted. rewrite Hpost.
    unfold validate.
    cbn [fst snd Form.title Form.subtitle Form.author Form.img_url Form.body].
    repeat split;
      try (rewrite (required_errors_empty strip _ _ H); reflexivity).
    all: unfold has_no_errors.
    all: try (rewrite (required_errors_empty strip _ _ H);
              cbn; rewrite ?andb_false_r; reflexivity).
    + pose proof (url_errors strip url_match _ H) as E.
      unfold has_no_errors in E.
      destruct (errors (validate_field [DataRequired strip; URL url_match]
                          (Form.img_url fm0))); [discriminate|].
      cbn. rewrite ?andb_false_r. reflexivity.
    + pose proof (url_errors strip url_match _ H) as E.
      unfold has_no_errors in E. intros Hnil. rewrite Hnil in E. discriminate.
Qed.

Lemma invalid_submission_not_persisted_witness :
  method no_author_request = POST
  /\ fst (validate_on_submit ascii_strip http_url no_author_request
            (CreatePostForm no_author_request "" "" "" "" "")) = false
  /\ snd (serve (new_post ascii_strip http_url no_author_request) one_post today)
       = one_post
  /\ form_errors (snd (validate_on_submit ascii_strip http_url no_author_request
                         (CreatePostForm no_author_request "" "" "" "" ""))) <> [].
Proof.
  repeat (split; [reflexivity|]).
  exact (proj2 (proj1 (invalid_submission_not_persisted ascii_strip http_url
                         one_post today no_author_request eq_refl) _ eq_refl)).
Defined.

(** C5 (get on a missing id).  When no stored post has the requested
    id, [show_post] raises nothing: its loop finds no row and the
    detail page is rendered with the post absent. *)
Theorem show_post_missing_renders
    (rows : list BlogPost) (now : datetime) (index : Z) :
  ~ In index (map id rows) ->
  serve (show_post index) rows now = (inl (render_post None), rows).
Proof.
  intros Hmiss. rewrite serve_show_post. unfold scan.
  now rewrite scan_loop_skip.
Qed.

Lemma show_post_missing_renders_witness :
  ~ In 7%Z (map id two_posts)
  /\ serve (show_post 7) two_posts today = (inl (render_post None), two_posts).
Proof.
  assert (H : ~ In 7%Z (map id two_posts)).
  { intros [H|[H|[]]]; discriminate H. }
  split; [exact H | exact (show_post_missing_renders two_posts today 7 H)].
Defined.



(** C7, as amended (create).  For a submission to [new_post] that
    validates and whose title is not the title of a stored post, one
    record is appended to the table: it carries the submitted fields, an
    id that no stored post has, and the date read from the server clock
    in the form "MM DD, YYYY" (month and day on two digits, the year on
    four), whatever the request contains; the list page shows it, and
    the response is a redirect to [/]. *)
Theorem new_post_creates
    (strip : string -> string) (url_match : string -> bool)
    (rows : list BlogPost) (now : datetime) (req : request)
    (fm : Form.CreatePostForm) :
  validate_on_submit strip url_match req (CreatePostForm req "" "" "" "" "")
    = (true, fm) ->
  title_taken (data (Form.title fm)) rows = false ->
  calendar_date now ->
  let created :=
    mkBlogPost (next_rowid rows)
               (data (Form.title fm)) (data (Form.subtitle fm))
               (strftime "%m %d, %Y" now)
               (data (Form.body fm)) (data (Form.author fm))
               (data (Form.img_url fm)) in
  serve (new_post strip url_match req) rows now
    = (inl (redirect "/"), rows ++ [created])
  /\ (exists all_posts,
        fst (serve get_all_posts (rows ++ [created]) now) = inl (render_index all_posts)
        /\ In created all_posts)
  /\ ~ In (id created) (map id rows)
  /\ (NoDup (map id rows) -> NoDup (map id (rows ++ [created])))
  /\ date created
     = (pad2 (month now) ++ " " ++ pad2 (day now) ++ ", " ++ pad4 (year now))%string
  /\ is_MM_DD_YYYY (date created) = true.
Proof.
  intros Hv Hfree Hdate created.
  split; [|split; [|split; [|split; [|split]]]].
  - rewrite serve_new_post, Hv, Hfree. reflexivity.
  - exists (rows ++ [created]). split; [reflexivity|].
    apply in_or_app. right. now left.
  - apply next_rowid_fresh.
  - intros Hnd. rewrite map_app. cbn [map id created].
    apply NoDup_app; [exact Hnd | constructor; [intros [] | constructor] |].
    intros x Hx [<-|[]]. now apply (next_rowid_fresh rows).
  - apply strftime_m_d_Y.
  - now apply strftime_shape.
Qed.

Lemma new_post_creates_witness :
  fst (validate_on_submit ascii_strip http_url hello_request
         (CreatePostForm hello_request "" "" "" "" "")) = true
  /\ title_taken "Hello" one_post = false
  /\ calendar_date today
  /\ serve (new_post ascii_strip http_url hello_request) one_post today
       = (inl (redirect "/"),
          one_post ++ [mkBlogPost 2 "Hello" "World" "03 07, 2021" "text" "A"
                                   "https://x.com/i.png"]).
Proof.
  assert (Hd : calendar_date today).
  { unfold calendar_date, today. cbn [year month day]. lia. }
  repeat (split; [reflexivity|]). split; [exact Hd|].
  exact (proj1 (new_post_creates ascii_strip http_url one_post today hello_request
                  (snd (validate_on_submit ascii_strip http_url hello_request
                          (CreatePostForm hello_request "" "" "" "" "")))
                  eq_refl eq_refl Hd)).
Defined.

(** C7 as stated fails: a submission that validates but repeats the
    title of a stored post creates no record and is not answered by a
    redirect; the commit raises [IntegrityError]. *)
Lemma new_post_duplicate_title_faults :
  fst (validate_on_submit ascii_strip http_url hello_request
         (CreatePostForm hello_request "" "" "" "" "")) = true
  /\ serve (new_post ascii_strip http_url hello_request) two_posts today
       = (inr IntegrityError, two_posts)
  /\ ~ (exists rows',
          serve (new_post ascii_strip http_url hello_request) two_posts today
            = (inl (redirect "/"), rows')).
Proof.
  repeat (split; [reflexivity|]). intros [rows' H]. discriminate H.
Qed.

(** C8 (delete).  For the id of a stored post, [delete] removes that
    row and answers with a redirect to [/]: afterwards the list page no
    longer shows a post with that id and a lookup of the id finds
    nothing, while every other row is still there, unchanged, and no row
    has appeared. *)
Theorem delete_removes_post
    (rows : list BlogPost) (now : datetime) (post_id : Z) :
  In post_id (map id rows) ->
  exists rows',
    serve (delete post_id) rows now = (inl (redirect "/"), rows')
    /\ serve get_all_posts rows' now = (inl (render_index rows'), rows')
    /\ ~ In post_id (map id rows')
    /\ lookup post_id rows' = None
    /\ (forall r, In r rows' <-> In r rows /\ id r <> post_id)
    /\ (forall pk, pk <> post_id -> lookup pk rows' = lookup pk rows).
Proof.
  intros Hin. destruct (lookup_In_exists _ _ Hin) as [p Hp].
  exists (filter (fun r => negb (Z.eqb (id r) post_id)) rows).
  split; [now apply (serve_delete_found post_id rows now p)|].
  split; [reflexivity|].
  split; [apply lookup_None_iff, lookup_delete_same|].
  split; [apply lookup_delete_same|].
  split.
  - intros r. rewrite filter_In, negb_true_iff, Z.eqb_neq. tauto.
  - intros pk Hne. now apply lookup_delete_other.
Qed.

Lemma delete_removes_post_witness :
  In 1%Z (map id two_posts)
  /\ serve (delete 1) two_posts today = (inl (redirect "/"), [hello_post])
  /\ exists rows',
       serve (delete 1) two_posts today = (inl (redirect "/"), rows')
       /\ lookup 1 rows' = None.
Proof.
  assert (H : In 1%Z (map id two_posts)) by (left; reflexivity).
  split; [exact H|]. split; [reflexivity|].
  destruct (delete_removes_post two_posts today 1 H) as [rows' [H1 [_ [_ [H2 _]]]]].
  exists rows'. split; [exact H1 | exact H2].
Defined.

(** C9 (the scan of [show_post] is a primary-key lookup).  In a table
    whose ids are unique, the loop of [show_post], which goes through
    all rows and keeps the last one with the requested id, returns what
    [query.get] returns for that id: the post with that id when there
    is one, and [None] otherwise. *)
Theorem show_post_scan_is_get
    (rows : list BlogPost) (now : datetime) (index : Z) :
  NoDup (map id rows) ->
  query_get index (mkWorld rows [] now)
    = (inl (scan index rows), mkWorld rows [] now)
  /\ serve (show_post index) rows now = (inl (render_post (lookup index rows)), rows)
  /\ (forall r, In r rows -> id r = index -> scan index rows = Some r)
  /\ (~ In index (map id rows) -> scan index rows = None).
Proof.
  intros Hnd. pose proof (scan_lookup index rows Hnd) as Hscan.
  split; [|split; [|split]].
  - unfold query_get. cbn [db]. now rewrite Hscan.
  - now rewrite serve_show_post, Hscan.
  - intros r Hin <-. rewrite Hscan. now apply lookup_unique.
  - intros Hmiss. rewrite Hscan. now apply lookup_None_iff.
Qed.

(** Without the primary key the two differ: the loop keeps the last
    row of the id, the lookup the first. *)
Example scan_last_lookup_first :
  let again := mkBlogPost 1 "Again" "" "" "" "" "" in
  scan 1 [first_post; again] = Some again
  /\ lookup 1 [first_post; again] = Some first_post.
Proof. split; reflexivity. Qed.

Lemma show_post_scan_is_get_witness :
  NoDup (map id two_posts)
  /\ scan 2 two_posts = Some hello_post
  /\ serve (show_post 2) two_posts today
       = (inl (render_post (lookup 2 two_posts)), two_posts).
Proof.
  assert (H : NoDup (map id two_posts)).
  { repeat constructor; cbn; intuition discriminate. }
  split; [exact H|]. split; [reflexivity|].
  exact (proj1 (proj2 (show_post_scan_is_get two_posts today 2 H))).
Defined.



(** * Further properties of the application *)

Section ApplicationFacts.

Variable strip : string -> string.
Variable url_match : string -> bool.

Implicit Types (rows : list BlogPost) (now : datetime) (req : request).

(** Validation annotates the fields and keeps their values. *)
Lemma validate_on_submit_keeps_data req fm0 validated fm :
  validate_on_submit strip url_match req fm0 = (validated, fm) ->
  data (Form.title fm) = data (Form.title fm0)
  /\ data (Form.subtitle fm) = data (Form.subtitle fm0)
  /\ data (Form.author fm) = data (Form.author fm0)
  /\ data (Form.img_url fm) = data (Form.img_url fm0)
  /\ data (Form.body fm) = data (Form.body fm0).
Proof.
  unfold validate_on_submit, validate.
  destruct (is_submitted req); intros H; injection H as _ <-; repeat split.
Qed.

(** The views that only read. *)
Lemma serve_reader e req rows now :
  match e with
  | ep_get_all_posts | ep_show_post _ | ep_about | ep_contact => True
  | _ => False
  end ->
  exists r, serve (view strip url_match e req) rows now = (inl r, rows)
            /\ forall location, r <> redirect location.
Proof.
  destruct e; intros H; try contradiction.
  - exists (render_index rows). split; [reflexivity | discriminate].
  - exists (render_post (scan index rows)). split; [reflexivity | discriminate].
  - exists render_about. split; [reflexivity | discriminate].
  - exists render_contact. split; [reflexivity | discriminate].
Qed.

Lemma view_keeps_table_ok e req rows now :
  table_ok rows -> table_ok (snd (serve (view strip url_match e req) rows now)).
Proof.
  intros Hok. destruct e; cbn [view]; try exact Hok.
  - now apply edit_post_keeps_table_ok.
  - now apply new_post_keeps_table_ok.
  - now apply delete_keeps_table_ok.
Qed.

Lemma flask_app_keeps_table_ok path req rows now :
  table_ok rows -> table_ok (snd (flask_app strip url_match path req rows now)).
Proof.
  intros Hok. unfold flask_app. destruct (route path) as [e|]; [|exact Hok].
  destruct (existsb _ _); [|exact Hok].
  pose proof (view_keeps_table_ok e req rows now Hok) as H.
  now destruct (serve _ rows now) as [[r|x] rows'].
Qed.

(** A view that does not answer with a redirect has written nothing. *)
Lemma view_writes_only_on_redirect e req rows now :
  (forall location,
      fst (serve (view strip url_match e req) rows now) <> inl (redirect location)) ->
  snd (serve (view strip url_match e req) rows now) = rows.
Proof.
  intros Hno. destruct e; cbn [view] in *; try reflexivity.
  - destruct (lookup post_id rows) as [p|] eqn:Hp.
    + rewrite (serve_edit_post_found strip url_match req post_id rows now p Hp) in *.
      destruct (validate_on_submit strip url_match req _) as [validated fm].
      destruct validated; [|reflexivity].
      destruct (title_taken_by_other post_id (data (Form.title fm)) rows);
        [reflexivity|].
      exfalso. now apply (Hno (url_for (ep_show_post post_id))).
    + now rewrite serve_edit_post_missing.
  - rewrite serve_new_post in *.
    destruct (validate_on_submit strip url_match req _) as [validated fm].
    destruct validated; [|reflexivity].
    destruct (title_taken (data (Form.title fm)) rows); [reflexivity|].
    exfalso. now apply (Hno "/").
  - destruct (lookup post_id rows) as [p|] eqn:Hp.
    + rewrite (serve_delete_found post_id rows now p Hp) in *.
      exfalso. now apply (Hno "/").
    + now rewrite serve_delete_missing.
Qed.

End ApplicationFacts.

(** X1 (constraints).  Every view keeps the constraints of the table:
    from a table whose ids are unique and whose titles are unique, any
    request to any of the seven views leaves such a table, whatever it
    answers. *)
Theorem views_keep_constraints
    (strip : string -> string) (url_match : string -> bool)
    (e : endpoint) (req : request) (rows : list BlogPost) (now : datetime) :
  table_ok rows ->
  NoDup (map id (snd (serve (view strip url_match e req) rows now)))
  /\ NoDup (map title (snd (serve (view strip url_match e req) rows now))).
Proof.
  intros Hok.
  assert (H : table_ok (snd (serve (view strip url_match e req) rows now))).
  { destruct e; cbn [view]; try exact Hok.
    - now apply edit_post_keeps_table_ok.
    - now apply new_post_keeps_table_ok.
    - now apply delete_keeps_table_ok. }
  destruct H as [Hid Htitle]. split; assumption.
Qed.

Lemma views_keep_constraints_witness :
  table_ok two_posts
  /\ NoDup (map id (snd (serve (view ascii_strip http_url (ep_edit_post 1)
                                  hello_request) two_posts today)))
  /\ NoDup (map title (snd (serve (view ascii_strip http_url (ep_edit_post 1)
                                     hello_request) two_posts today))).
Proof.
  assert (H : table_ok two_posts).
  { split; repeat constructor; cbn; intuition discriminate. }
  split; [exact H|].
  exact (views_keep_constraints ascii_strip http_url (ep_edit_post 1)
           hello_request two_posts today H).
Defined.

(** X2 (reachable tables).  Whatever sequence of requests the
    application serves, with any paths, methods, form data and times, a
    table that satisfied the primary-key and unique-title constraints
    before satisfies them after; so does every table reached from the
    empty one. *)
Theorem served_tables_keep_constraints
    (strip : string -> string) (url_match : string -> bool)
    (reqs : list (string * request * datetime)) (rows : list BlogPost) :
  table_ok rows -> table_ok (run_requests strip url_match reqs rows).
Proof.
  revert rows. induction reqs as [|[[path req] now] reqs IH]; intros rows Hok.
  - exact Hok.
  - cbn [run_requests]. apply IH. now apply flask_app_keeps_table_ok.
Qed.

Lemma served_tables_keep_constraints_witness :
  table_ok []
  /\ table_ok (run_requests ascii_strip http_url
                 [("/new-post", hello_request, today);
                  ("/new-post", hello_request, today);
                  ("/edit_post/1", no_author_request, today);
                  ("/delete/1", get_request, today)] []).
Proof.
  assert (H : table_ok []) by (split; constructor).
  split; [exact H|].
  exact (served_tables_keep_constraints ascii_strip http_url _ [] H).
Defined.

(** X3 (writes show as redirects).  Whenever the application answers
    anything but a redirect (a rendered page, an uncaught exception, a
    refused method, no view), the table is exactly as before: no
    request leaves a partial write behind. *)
Theorem table_changes_only_on_redirect
    (strip : string -> string) (url_match : string -> bool)
    (path : string) (req : request) (rows : list BlogPost) (now : datetime) :
  (forall location,
      fst (flask_app strip url_match path req rows now)
        <> answered (redirect location)) ->
  snd (flask_app strip url_match path req rows now) = rows.
Proof.
  unfold flask_app. destruct (route path) as [e|]; [|reflexivity].
  destruct (existsb _ _); [|reflexivity].
  pose proof (view_writes_only_on_redirect strip url_match e req rows now) as H.
  destruct (serve _ rows now) as [[r|x] rows']; cbn [fst snd] in *; intros Hno.
  - apply H. intros location Heq. apply (Hno location). congruence.
  - apply H. discriminate.
Qed.

Lemma table_changes_only_on_redirect_witness :
  (forall location,
      fst (flask_app ascii_strip http_url "/new-post" hello_request two_posts today)
        <> answered (redirect location))
  /\ snd (flask_app ascii_strip http_url "/new-post" hello_request two_posts today)
     = two_posts.
Proof.
  assert (H : forall location,
             fst (flask_app ascii_strip http_url "/new-post" hello_request
                    two_posts today) <> answered (redirect location)).
  { intros location. vm_compute. discriminate. }
  split; [exact H|].
  exact (table_changes_only_on_redirect ascii_strip http_url "/new-post"
           hello_request two_posts today H).
Defined.

Section RoutingFacts.

(** The [int] converter reads back what [url_for] prints for an id
    that is not negative. *)
Lemma int_converter_string_of_Z (z : Z) :
  (0 <= z)%Z -> int_converter (string_of_Z z) = Some z.
Proof.
  intros Hz. unfold int_converter, string_of_Z. destruct z as [|p|p].
  - reflexivity.
  - cbn [Z.to_int NilZero.string_of_int].
    rewrite NilZero.usu by apply DecimalPos.Unsigned.to_uint_nonnil.
    change (N.of_uint (Pos.to_uint p)) with (Pos.of_uint (Pos.to_uint p)).
    now rewrite DecimalPos.Unsigned.of_to.
  - lia.
Qed.

(** It never yields a negative number. *)
Lemma int_converter_nonneg (s : string) (z : Z) :
  int_converter s = Some z -> (0 <= z)%Z.
Proof.
  unfold int_converter. destruct (NilZero.uint_of_string s); [|discriminate].
  intros H. injection H as <-. lia.
Qed.

(** It refuses the sign that [url_for] prints for a negative id. *)
Lemma int_converter_negative (z : Z) :
  (z < 0)%Z -> int_converter (string_of_Z z) = None.
Proof.
  intros Hz. unfold int_converter, string_of_Z. destruct z as [|p|p]; try lia.
  cbn [Z.to_int NilZero.string_of_int NilZero.uint_of_string
       NilEmpty.uint_of_string].
  now destruct (NilEmpty.uint_of_string _).
Qed.

End RoutingFacts.

(** X4 (URL round trip).  The URL that [url_for] builds for a view
    leads back to that view with the same argument, provided the id is
    not negative; for a negative id the URL built matches no rule. *)
Theorem url_for_routes_back (e : endpoint) :
  (match e with
   | ep_show_post n | ep_edit_post n | ep_delete n => (0 <= n)%Z
   | _ => True
   end -> route (url_for e) = Some e)
  /\ (match e with
      | ep_show_post n | ep_edit_post n | ep_delete n => (n < 0)%Z
      | _ => False
      end -> route (url_for e) = None).
Proof.
  split; intros H; destruct e; try reflexivity; try contradiction;
    unfold route, url_for, int_rule;
    cbn [String.eqb Ascii.eqb Bool.eqb append strip_prefix];
    rewrite ?(int_converter_string_of_Z _ H), ?(int_converter_negative _ H);
    reflexivity.
Qed.

Lemma url_for_routes_back_witness :
  (0 <= 12)%Z
  /\ url_for (ep_edit_post 12) = "/edit_post/12"
  /\ route (url_for (ep_edit_post 12)) = Some (ep_edit_post 12).
Proof.
  assert (H : (0 <= 12)%Z) by lia.
  split; [exact H|]. split; [reflexivity|].
  exact (proj1 (url_for_routes_back (ep_edit_post 12)) H).
Defined.

(** X5 (ids from the URL).  The id that the URL map passes to
    [show_post], [edit_post] or [delete] is never negative. *)
Theorem routed_ids_not_negative (path : string) (e : endpoint) :
  route path = Some e ->
  match e with
  | ep_show_post n | ep_edit_post n | ep_delete n => (0 <= n)%Z
  | _ => True
  end.
Proof.
  unfold route, int_rule.
  repeat match goal with
         | |- context [if ?c then _ else _] => destruct c
         end;
    try (intros H; injection H as <-; exact I).
  destruct (strip_prefix "/post/" path) as [s1|].
  - destruct (int_converter s1) as [n|] eqn:E1.
    + intros H. injection H as <-. now apply (int_converter_nonneg s1).
    + destruct (strip_prefix "/edit_post/" path) as [s2|].
      * destruct (int_converter s2) as [n|] eqn:E2.
        -- intros H. injection H as <-. now apply (int_converter_nonneg s2).
        -- destruct (strip_prefix "/delete/" path) as [s3|]; [|discriminate].
           destruct (int_converter s3) as [n|] eqn:E3; [|discriminate].
           intros H. injection H as <-. now apply (int_converter_nonneg s3).
      * destruct (strip_prefix "/delete/" path) as [s3|]; [|discriminate].
        destruct (int_converter s3) as [n|] eqn:E3; [|discriminate].
        intros H. injection H as <-. now apply (int_converter_nonneg s3).
  - destruct (strip_prefix "/edit_post/" path) as [s2|].
    + destruct (int_converter s2) as [n|] eqn:E2.
      * intros H. injection H as <-. now apply (int_converter_nonneg s2).
      * destruct (strip_prefix "/delete/" path) as [s3|]; [|discriminate].
        destruct (int_converter s3) as [n|] eqn:E3; [|discriminate].
        intros H. injection H as <-. now apply (int_converter_nonneg s3).
    + destruct (strip_prefix "/delete/" path) as [s3|]; [|discriminate].
      destruct (int_converter s3) as [n|] eqn:E3; [|discriminate].
      intros H. injection H as <-. now apply (int_converter_nonneg s3).
Qed.

Lemma routed_ids_not_negative_witness :
  route "/delete/007" = Some (ep_delete 7) /\ (0 <= 7)%Z.
Proof.
  split; [reflexivity|].
  exact (routed_ids_not_negative "/delete/007" (ep_delete 7) eq_refl).
Defined.

(** X6 (GET and the table).  A GET request changes the table on one
    route only: whatever the path and the data it carries, if it is not
    routed to [delete], the table afterwards is the table before.  On
    [/new-post] it is answered with the empty form, without errors. *)
Theorem get_writes_only_through_delete
    (strip : string -> string) (url_match : string -> bool)
    (path : string) (req : request) (rows : list BlogPost) (now : datetime) :
  method req = GET ->
  (forall post_id, route path <> Some (ep_delete post_id)) ->
  snd (flask_app strip url_match path req rows now) = rows
  /\ (route path = Some ep_new_post ->
      fst (flask_app strip url_match path req rows now)
      = answered (render_make_post
                    (Form.mk (mkField "" []) (mkField "" []) (mkField "" [])
                             (mkField "" []) (mkField "" []) (mkField "" []))
                    true)).
Proof.
  intros Hget Hroute. unfold flask_app.
  destruct (route path) as [e|]; [|split; [reflexivity | discriminate]].
  destruct e; cbn [methods existsb method_eqb view]; rewrite Hget;
    cbn [method_eqb orb]; try (split; [reflexivity | discriminate]).
  - destruct (lookup post_id rows) as [p|] eqn:Hp.
    + rewrite (serve_edit_post_found strip url_match req post_id rows now p Hp).
      unfold validate_on_submit, is_submitted. rewrite Hget.
      split; [reflexivity | discriminate].
    + rewrite serve_edit_post_missing by assumption.
      split; [reflexivity | discriminate].
  - rewrite serve_new_post.
    unfold validate_on_submit, CreatePostForm, process, is_submitted.
    rewrite Hget. split; reflexivity.
  - exfalso. now apply (Hroute post_id).
Qed.

Lemma get_writes_only_through_delete_witness :
  method get_request = GET
  /\ (forall post_id, route "/edit_post/1" <> Some (ep_delete post_id))
  /\ snd (flask_app ascii_strip http_url "/edit_post/1" get_request two_posts today)
     = two_posts.
Proof.
  assert (H : forall post_id, route "/edit_post/1" <> Some (ep_delete post_id)).
  { intros post_id. vm_compute. discriminate. }
  split; [reflexivity|]. split; [exact H|].
  exact (proj1 (get_writes_only_through_delete ascii_strip http_url "/edit_post/1"
                  get_request two_posts today eq_refl H)).
Defined.

(** X7 (POST and the routes).  Only the two form routes take a POST: a
    POST to the list, a post page, the about or contact page, or to
    [/delete/<id>] is refused with "method not allowed"; the view does
    not run and the table is unchanged. *)
Theorem post_refused_outside_forms
    (strip : string -> string) (url_match : string -> bool)
    (path : string) (req : request) (rows : list BlogPost) (now : datetime)
    (e : endpoint) :
  method req = POST ->
  route path = Some e ->
  e <> ep_new_post ->
  (forall post_id, e <> ep_edit_post post_id) ->
  flask_app strip url_match path req rows now = (method_not_allowed, rows).
Proof.
  intros Hpost Hroute Hnew Hedit. unfold flask_app. rewrite Hroute.
  destruct e; cbn [methods existsb]; rewrite Hpost; cbn [method_eqb orb];
    try reflexivity.
  - exfalso. now apply (Hedit post_id).
  - contradiction.
Qed.

Lemma post_refused_outside_forms_witness :
  method hello_request = POST
  /\ route "/delete/1" = Some (ep_delete 1)
  /\ flask_app ascii_strip http_url "/delete/1" hello_request two_posts today
     = (method_not_allowed, two_posts).
Proof.
  split; [reflexivity|]. split; [reflexivity|].
  refine (post_refused_outside_forms ascii_strip http_url "/delete/1"
            hello_request two_posts today (ep_delete 1) eq_refl eq_refl _ _);
    intros; discriminate.
Defined.

(** X8 (what the form accepts).  [validate_on_submit] accepts a form
    exactly when the request is a POST with a valid CSRF token, each of
    the five fields is neither empty nor blank, and the image URL
    passes the URL validator. *)
Theorem validate_on_submit_iff
    (strip : string -> string) (url_match : string -> bool)
    (req : request) (fm : Form.CreatePostForm) :
  fst (validate_on_submit strip url_match req fm) = true
  <->
  (method req = POST /\ csrf_valid req = true
   /\ (data (Form.title fm) <> "" /\ strip (data (Form.title fm)) <> "")
   /\ (data (Form.subtitle fm) <> "" /\ strip (data (Form.subtitle fm)) <> "")
   /\ (data (Form.author fm) <> "" /\ strip (data (Form.author fm)) <> "")
   /\ (data (Form.img_url fm) <> "" /\ strip (data (Form.img_url fm)) <> "")
   /\ (data (Form.body fm) <> "" /\ strip (data (Form.body fm)) <> "")
   /\ url_match (data (Form.img_url fm)) = true).
Proof.
  unfold validate_on_submit, is_submitted. split.
  - destruct (method req); [discriminate|].
    unfold validate. cbn [fst]. intros H.
    apply andb_true_iff in H. destruct H as [H Hcsrf].
    apply andb_true_iff in H. destruct H as [H Hbody].
    apply andb_true_iff in H. destruct H as [H Himg].
    apply andb_true_iff in H. destruct H as [H Hauthor].
    apply andb_true_iff in H. destruct H as [Htitle Hsubtitle].
    pose proof (url_no_errors strip url_match _ Himg) as Hurl.
    apply required_no_errors in Htitle, Hsubtitle, Hauthor, Himg, Hbody.
    unfold has_no_errors, validate_csrf_token in Hcsrf. cbn [errors] in Hcsrf.
    destruct (csrf_valid req); [|discriminate]. tauto.
  - intros [Hm [Hc [[Ht Ht'] [[Hs Hs'] [[Ha Ha'] [[Hi Hi'] [[Hb Hb'] Hu]]]]]]].
    rewrite Hm. unfold validate, has_no_errors, validate_field,
      validate_csrf_token, DataRequired, URL.
    cbn [fst errors data run_validation_chain].
    apply String.eqb_neq in Ht, Ht', Hs, Hs', Ha, Ha', Hi, Hi', Hb, Hb'.
    rewrite Ht, Ht', Hs, Hs', Ha, Ha', Hi, Hi', Hb, Hb', Hu, Hc.
    reflexivity.
Qed.

Lemma validate_on_submit_iff_witness :
  fst (validate_on_submit ascii_strip http_url hello_request
         (CreatePostForm hello_request "" "" "" "" "")) = true
  /\ method hello_request = POST.
Proof.
  split; [reflexivity|].
  exact (proj1 (proj1 (validate_on_submit_iff ascii_strip http_url hello_request
                         (CreatePostForm hello_request "" "" "" "" "")) eq_refl)).
Defined.

(** X9 (required columns).  The views keep the guarantee of the form
    on stored posts: if every stored post has a non-empty title,
    subtitle, author, image URL and body and an image URL that passes
    the URL validator, the same holds after any request to any view,
    for the posts created, edited and left alone. *)
Theorem views_keep_posts_filled
    (strip : string -> string) (url_match : string -> bool)
    (e : endpoint) (req : request) (rows : list BlogPost) (now : datetime) :
  Forall (post_filled url_match) rows ->
  Forall (post_filled url_match)
         (snd (serve (view strip url_match e req) rows now)).
Proof.
  intros Hall.
  assert (Hform : forall fm0 fm,
             validate_on_submit strip url_match req fm0 = (true, fm) ->
             data (Form.title fm) <> "" /\ data (Form.subtitle fm) <> ""
             /\ data (Form.author fm) <> "" /\ data (Form.img_url fm) <> ""
             /\ data (Form.body fm) <> ""
             /\ url_match (data (Form.img_url fm)) = true).
  { intros fm0 fm Hv.
    destruct (validate_on_submit_keeps_data strip url_match req fm0 true fm Hv)
      as [-> [-> [-> [-> ->]]]].
    assert (Hfst : fst (validate_on_submit strip url_match req fm0) = true)
      by now rewrite Hv.
    apply validate_on_submit_true in Hfst. tauto. }
  destruct e; cbn [view]; try exact Hall.
  - destruct (lookup post_id rows) as [p|] eqn:Hp.
    + rewrite (serve_edit_post_found strip url_match req post_id rows now p Hp).
      destruct (validate_on_submit strip url_match req _) as [validated fm] eqn:Hv.
      destruct validated; [|exact Hall].
      destruct (title_taken_by_other post_id (data (Form.title fm)) rows);
        [exact Hall|].
      cbn [snd]. apply Forall_forall. intros r Hin.
      apply in_map_iff in Hin. destruct Hin as [r0 [<- Hin]].
      unfold overwrite. destruct (Z.eqb (id r0) post_id).
      * unfold post_filled. cbn [title subtitle author img_url body].
        exact (Hform _ _ Hv).
      * now apply (proj1 (Forall_forall _ _) Hall).
    + now rewrite serve_edit_post_missing.
  - rewrite serve_new_post.
    destruct (validate_on_submit strip url_match req _) as [validated fm] eqn:Hv.
    destruct validated; [|exact Hall].
    destruct (title_taken (data (Form.title fm)) rows); [exact Hall|].
    cbn [snd]. apply Forall_app. split; [exact Hall|].
    constructor; [|constructor].
    unfold post_filled, insert_row.
    cbn [title subtitle author img_url body new_title new_subtitle new_author
         new_img_url new_body].
    exact (Hform _ _ Hv).
  - destruct (lookup post_id rows) as [p|] eqn:Hp.
    + rewrite (serve_delete_found post_id rows now p Hp). cbn [snd].
      apply Forall_forall. intros r Hin. apply filter_In in Hin.
      now apply (proj1 (Forall_forall _ _) Hall).
    + now rewrite serve_delete_missing.
Qed.

Lemma views_keep_posts_filled_witness :
  Forall (post_filled http_url) two_posts
  /\ Forall (post_filled http_url)
            (snd (serve (view ascii_strip http_url ep_new_post hello_request)
                    one_post today)).
Proof.
  assert (H1 : Forall (post_filled http_url) one_post).
  { repeat constructor; discriminate. }
  split.
  - repeat constructor; discriminate.
  - exact (views_keep_posts_filled ascii_strip http_url ep_new_post hello_request
             one_post today H1).
Defined.

(** X10 (create appends).  Whatever is submitted to [new_post], the
    stored posts stay as they are and where they are: the table
    afterwards is the table before, or the table before followed by one
    new post, whose id is above every id in use and whose date is the
    server's date. *)
Theorem new_post_only_appends
    (strip : string -> string) (url_match : string -> bool)
    (req : request) (rows : list BlogPost) (now : datetime) :
  snd (serve (new_post strip url_match req) rows now) = rows
  \/ exists r,
       snd (serve (new_post strip url_match req) rows now) = rows ++ [r]
       /\ id r = next_rowid rows
       /\ (forall pk, In pk (map id rows) -> (pk < id r)%Z)
       /\ date r = strftime "%m %d, %Y" now.
Proof.
  rewrite serve_new_post.
  destruct (validate_on_submit strip url_match req _) as [validated fm].
  destruct validated; [|now left].
  destruct (title_taken (data (Form.title fm)) rows); [now left|].
  right. eexists. split; [reflexivity|]. cbn [insert_row id date new_date].
  split; [reflexivity|]. split; [|reflexivity].
  intros pk Hin. now apply next_rowid_above.
Qed.

Lemma new_post_only_appends_witness :
  snd (serve (new_post ascii_strip http_url hello_request) one_post today)
    = one_post
  \/ exists r,
       snd (serve (new_post ascii_strip http_url hello_request) one_post today)
         = one_post ++ [r]
       /\ id r = 2%Z
       /\ (forall pk, In pk (map id one_post) -> (pk < id r)%Z)
       /\ date r = "03 07, 2021".
Proof.
  exact (new_post_only_appends ascii_strip http_url hello_request one_post today).
Defined.

(** X11 (edit frame).  Whatever is submitted to [edit_post] and
    whatever it answers, it neither adds nor removes a post, changes no
    id and no date, and leaves every post with another id as it was. *)
Theorem edit_post_frame
    (strip : string -> string) (url_match : string -> bool)
    (req : request) (post_id : Z) (rows : list BlogPost) (now : datetime) :
  let rows' := snd (serve (edit_post strip url_match req post_id) rows now) in
  List.length rows' = List.length rows
  /\ map id rows' = map id rows
  /\ map date rows' = map date rows
  /\ (forall pk, pk <> post_id -> lookup pk rows' = lookup pk rows).
Proof.
  cbv zeta. destruct (lookup post_id rows) as [p|] eqn:Hp.
  - rewrite (serve_edit_post_found strip url_match req post_id rows now p Hp).
    destruct (validate_on_submit strip url_match req _) as [validated fm].
    destruct validated; [|now repeat split].
    destruct (title_taken_by_other post_id (data (Form.title fm)) rows);
      [now repeat split|].
    cbn [snd]. split; [apply length_map|]. split; [|split].
    + rewrite map_map. apply map_ext. intros r. apply id_overwrite.
    + rewrite map_map. apply map_ext. intros r. unfold overwrite.
      now destruct (Z.eqb (id r) post_id).
    + intros pk Hne. rewrite lookup_overwrite.
      destruct (lookup pk rows) as [r|] eqn:E; [|reflexivity].
      destruct (lookup_Some_inv _ _ _ E) as [_ Hr]. cbn [option_map].
      unfold overwrite.
      destruct (Z.eqb_spec (id r) post_id); [congruence | reflexivity].
  - rewrite serve_edit_post_missing by assumption. now repeat split.
Qed.

Lemma edit_post_frame_witness :
  map date (snd (serve (edit_post ascii_strip http_url hello_request 1)
                   one_post today))
  = map date one_post
  /\ lookup 2
       (snd (serve (edit_post ascii_strip http_url no_author_request 1)
               two_posts today))
     = Some hello_post.
Proof.
  split.
  - exact (proj1 (proj2 (proj2 (edit_post_frame ascii_strip http_url hello_request
                                  1 one_post today)))).
  - refine (proj2 (proj2 (proj2 (edit_post_frame ascii_strip http_url
                                   no_author_request 1 two_posts today))) 2%Z _).
    discriminate.
Defined.

Section CompositionFacts.

Implicit Types (rows : list BlogPost) (pk : Z).

Lemma delete_absent pk rows :
  ~ In pk (map id rows) ->
  filter (fun r => negb (Z.eqb (id r) pk)) rows = rows.
Proof.
  induction rows as [|r rows IH]; cbn [map filter]; intros Hnotin; [reflexivity|].
  destruct (Z.eqb_spec (id r) pk) as [E|E]; cbn [negb].
  - exfalso. apply Hnotin. now left.
  - rewrite IH; [reflexivity|]. intros H. apply Hnotin. now right.
Qed.

Lemma NoDup_map_In_inj {A B : Type} (f : A -> B) (l : list A) (x y : A) :
  NoDup (map f l) -> In x l -> In y l -> f x = f y -> x = y.
Proof.
  induction l as [|a l IH]; cbn [map]; intros Hnd Hx Hy Hxy; [contradiction|].
  inversion Hnd as [|? ? Hnotin Hnd']; subst.
  destruct Hx as [->|Hx], Hy as [->|Hy].
  - reflexivity.
  - exfalso. apply Hnotin. rewrite Hxy. now apply in_map.
  - exfalso. apply Hnotin. rewrite <- Hxy. now apply in_map.
  - now apply IH.
Qed.

Lemma overwrite_again pk fm r :
  overwrite pk fm (overwrite pk fm r) = overwrite pk fm r.
Proof.
  unfold overwrite. destruct (Z.eqb (id r) pk) eqn:E.
  - cbn [id date]. now rewrite E.
  - now rewrite E.
Qed.

Lemma title_taken_by_other_overwrite pk t fm rows :
  title_taken_by_other pk t (map (overwrite pk fm) rows)
  = title_taken_by_other pk t rows.
Proof.
  unfold title_taken_by_other.
  induction rows as [|r rows IH]; cbn [map existsb]; [reflexivity|].
  rewrite IH. f_equal. unfold overwrite.
  destruct (Z.eqb (id r) pk) eqn:E; cbn [id]; now rewrite E.
Qed.

End CompositionFacts.

(** X12 (create, then delete).  After a submission to [new_post] that
    validates with a title not in use, a request to [delete] for the id
    just assigned is answered with a redirect to [/] and leaves exactly
    the table from before the creation; the next post created is
    therefore given that same id again. *)
Theorem create_then_delete_restores
    (strip : string -> string) (url_match : string -> bool)
    (req : request) (fm : Form.CreatePostForm)
    (rows : list BlogPost) (now later : datetime) :
  validate_on_submit strip url_match req (CreatePostForm req "" "" "" "" "")
    = (true, fm) ->
  title_taken (data (Form.title fm)) rows = false ->
  let created := snd (serve (new_post strip url_match req) rows now) in
  lookup (next_rowid rows) created <> None
  /\ serve (delete (next_rowid rows)) created later = (inl (redirect "/"), rows)
  /\ next_rowid (snd (serve (delete (next_rowid rows)) created later))
     = next_rowid rows.
Proof.
  intros Hv Hfree. cbv zeta. rewrite serve_new_post, Hv, Hfree. cbn [snd].
  set (p := BlogPost_ _ _ _ _ _ _).
  pose proof (lookup_inserted rows p) as Hl.
  split; [now rewrite Hl|].
  rewrite (serve_delete_found _ _ later _ Hl).
  assert (Hrows : filter (fun r => negb (Z.eqb (id r) (next_rowid rows)))
                    (rows ++ [insert_row p rows]) = rows).
  { rewrite filter_app, delete_absent by apply next_rowid_fresh.
    cbn [filter insert_row id]. rewrite Z.eqb_refl. cbn [negb].
    apply app_nil_r. }
  rewrite Hrows. split; reflexivity.
Qed.

Lemma create_then_delete_restores_witness :
  fst (validate_on_submit ascii_strip http_url hello_request
         (CreatePostForm hello_request "" "" "" "" "")) = true
  /\ title_taken "Hello" one_post = false
  /\ serve (delete 2)
       (snd (serve (new_post ascii_strip http_url hello_request) one_post today))
       today
     = (inl (redirect "/"), one_post).
Proof.
  split; [reflexivity|]. split; [reflexivity|].
  exact (proj1 (proj2 (create_then_delete_restores ascii_strip http_url
                         hello_request
                         (snd (validate_on_submit ascii_strip http_url hello_request
                                 (CreatePostForm hello_request "" "" "" "" "")))
                         one_post today today eq_refl eq_refl))).
Defined.

(** X13 (delete, twice).  Deleting is not repeatable: after [delete]
    has removed a stored post, the same request again finds nothing to
    delete and ends in [UnmappedInstanceError], the table staying as
    the first request left it. *)
Theorem delete_again_faults
    (rows : list BlogPost) (now later : datetime) (post_id : Z) :
  In post_id (map id rows) ->
  let rows' := snd (serve (delete post_id) rows now) in
  fst (serve (delete post_id) rows now) = inl (redirect "/")
  /\ serve (delete post_id) rows' later = (inr UnmappedInstanceError, rows').
Proof.
  intros Hin. cbv zeta. destruct (lookup_In_exists _ _ Hin) as [p Hp].
  rewrite (serve_delete_found post_id rows now p Hp). cbn [fst snd].
  split; [reflexivity|].
  apply serve_delete_missing, lookup_delete_same.
Qed.

Lemma delete_again_faults_witness :
  In 1%Z (map id two_posts)
  /\ serve (delete 1) (snd (serve (delete 1) two_posts today)) today
     = (inr UnmappedInstanceError, [hello_post]).
Proof.
  assert (H : In 1%Z (map id two_posts)) by (left; reflexivity).
  split; [exact H|].
  exact (proj2 (delete_again_faults two_posts today today 1 H)).
Defined.

(** X14 (edit keeping the title).  In a table that satisfies its
    constraints, a submission to [edit_post] that validates and carries
    the title the post already has is never refused by the unique-title
    constraint: it is answered with the redirect to the post. *)
Theorem edit_keeping_title_accepted
    (strip : string -> string) (url_match : string -> bool)
    (req : request) (fm : Form.CreatePostForm)
    (rows : list BlogPost) (now : datetime) (post_id : Z) (p : BlogPost) :
  table_ok rows ->
  lookup post_id rows = Some p ->
  validate_on_submit strip url_match req
    (CreatePostForm req (title p) (subtitle p) (author p) (img_url p) (body p))
    = (true, fm) ->
  data (Form.title fm) = title p ->
  serve (edit_post strip url_match req post_id) rows now
  = (inl (redirect (url_for (ep_show_post post_id))),
     map (overwrite post_id fm) rows).
Proof.
  intros [Hid Ht] Hp Hv Hsame.
  rewrite (serve_edit_post_found strip url_match req post_id rows now p Hp), Hv.
  destruct (title_taken_by_other post_id (data (Form.title fm)) rows) eqn:E;
    [|reflexivity].
  exfalso. apply title_taken_by_other_iff in E.
  destruct E as [r [Hin [Hne Htitle]]].
  destruct (lookup_Some_inv _ _ _ Hp) as [Hpin Hpid].
  assert (r = p).
  { apply (NoDup_map_In_inj title rows); try assumption. congruence. }
  subst r. contradiction.
Qed.

Lemma edit_keeping_title_accepted_witness :
  table_ok two_posts
  /\ lookup 2 two_posts = Some hello_post
  /\ serve (edit_post ascii_strip http_url hello_request 2) two_posts today
     = (inl (redirect "/post/2"),
        [first_post;
         mkBlogPost 2 "Hello" "World" "03 02, 2021" "text" "A"
                    "https://x.com/i.png"]).
Proof.
  assert (H : table_ok two_posts).
  { split; repeat constructor; cbn; intuition discriminate. }
  split; [exact H|]. split; [reflexivity|].
  exact (edit_keeping_title_accepted ascii_strip http_url hello_request
           (snd (validate_on_submit ascii_strip http_url hello_request
                   (CreatePostForm hello_request (title hello_post)
                      (subtitle hello_post) (author hello_post)
                      (img_url hello_post) (body hello_post))))
           two_posts today 2 hello_post H eq_refl eq_refl eq_refl).
Defined.

Section FormDefaultFacts.

Variable strip : string -> string.
Variable url_match : string -> bool.

(** Binding a field again with its own value as the default changes
    nothing. *)
Lemma process_default_again req name default :
  process req name (data (process req name default)) = process req name default.
Proof.
  unfold process. cbn [data]. destruct (is_submitted req); [|reflexivity].
  now destruct (formdata_get name (form req)).
Qed.

(** A field the request does not carry holds its default. *)
Lemma process_omitted req name default :
  formdata_get name (form req) = None -> data (process req name default) = default.
Proof.
  intros H. unfold process. cbn [data]. rewrite H.
  now destruct (is_submitted req).
Qed.

Lemma route_show_post (n : Z) :
  (0 <= n)%Z -> route (url_for (ep_show_post n)) = Some (ep_show_post n).
Proof.
  intros H. unfold route, url_for, int_rule.
  cbn [String.eqb Ascii.eqb Bool.eqb append strip_prefix].
  now rewrite (int_converter_string_of_Z _ H).
Qed.

End FormDefaultFacts.

(** X15 (the same edit, twice).  Submitting to [edit_post] again what
    it has just accepted is accepted again and changes nothing more:
    the second request is answered with the same redirect and leaves
    the table as the first one left it. *)
Theorem edit_post_idempotent
    (strip : string -> string) (url_match : string -> bool)
    (req : request) (fm : Form.CreatePostForm)
    (rows : list BlogPost) (now later : datetime) (post_id : Z) (p : BlogPost) :
  lookup post_id rows = Some p ->
  validate_on_submit strip url_match req
    (CreatePostForm req (title p) (subtitle p) (author p) (img_url p) (body p))
    = (true, fm) ->
  title_taken_by_other post_id (data (Form.title fm)) rows = false ->
  let rows' := snd (serve (edit_post strip url_match req post_id) rows now) in
  fst (serve (edit_post strip url_match req post_id) rows now)
    = inl (redirect (url_for (ep_show_post post_id)))
  /\ serve (edit_post strip url_match req post_id) rows' later
     = (inl (redirect (url_for (ep_show_post post_id))), rows').
Proof.
  intros Hp Hv Hfree. cbv zeta.
  rewrite (serve_edit_post_found strip url_match req post_id rows now p Hp),
    Hv, Hfree. cbn [fst snd]. split; [reflexivity|].
  destruct (lookup_Some_inv _ _ _ Hp) as [_ Hid].
  assert (Hp' : lookup post_id (map (overwrite post_id fm) rows)
                = Some (overwrite post_id fm p)).
  { now rewrite lookup_overwrite, Hp. }
  rewrite (serve_edit_post_found strip url_match req post_id _ later _ Hp').
  destruct (validate_on_submit_keeps_data strip url_match req _ _ _ Hv)
    as [Et [Es [Ea [Ei Eb]]]].
  unfold CreatePostForm in Et, Es, Ea, Ei, Eb.
  cbn [Form.title Form.subtitle Form.author Form.img_url Form.body]
    in Et, Es, Ea, Ei, Eb.
  assert (Hform : CreatePostForm req
                    (title (overwrite post_id fm p))
                    (subtitle (overwrite post_id fm p))
                    (author (overwrite post_id fm p))
                    (img_url (overwrite post_id fm p))
                    (body (overwrite post_id fm p))
                  = CreatePostForm req (title p) (subtitle p) (author p)
                      (img_url p) (body p)).
  { unfold overwrite. rewrite (proj2 (Z.eqb_eq _ _) Hid).
    cbn [title subtitle author img_url body]. unfold CreatePostForm.
    rewrite Et, Es, Ea, Ei, Eb. now rewrite !process_default_again. }
  rewrite Hform, Hv, title_taken_by_other_overwrite, Hfree.
  f_equal. rewrite map_map. apply map_ext. intros r. apply overwrite_again.
Qed.

Lemma edit_post_idempotent_witness :
  lookup 1 one_post = Some first_post
  /\ title_taken_by_other 1 "Hello" one_post = false
  /\ serve (edit_post ascii_strip http_url hello_request 1)
       (snd (serve (edit_post ascii_strip http_url hello_request 1) one_post today))
       today
     = (inl (redirect "/post/1"),
        snd (serve (edit_post ascii_strip http_url hello_request 1) one_post today)).
Proof.
  split; [reflexivity|]. split; [reflexivity|].
  exact (proj2 (edit_post_idempotent ascii_strip http_url hello_request
                  (snd (validate_on_submit ascii_strip http_url hello_request
                          (CreatePostForm hello_request (title first_post)
                             (subtitle first_post) (author first_post)
                             (img_url first_post) (body first_post))))
                  one_post today today 1 first_post eq_refl eq_refl eq_refl)).
Defined.

(** X16 (following the redirect of an edit).  In a table with unique
    ids, the location [edit_post] redirects to after an accepted
    submission is routed, for a GET, to [show_post] with the id of the
    edited post, and the page it renders shows the post with the
    submitted columns and its old id and date. *)
Theorem edit_redirect_shows_update
    (strip : string -> string) (url_match : string -> bool)
    (req next : request) (fm : Form.CreatePostForm)
    (rows : list BlogPost) (now later : datetime) (post_id : Z) (p : BlogPost) :
  NoDup (map id rows) ->
  (0 <= post_id)%Z ->
  lookup post_id rows = Some p ->
  validate_on_submit strip url_match req
    (CreatePostForm req (title p) (subtitle p) (author p) (img_url p) (body p))
    = (true, fm) ->
  title_taken_by_other post_id (data (Form.title fm)) rows = false ->
  method next = GET ->
  exists location rows',
    serve (edit_post strip url_match req post_id) rows now
      = (inl (redirect location), rows')
    /\ flask_app strip url_match location next rows' later
       = (answered
            (render_post
               (Some (mkBlogPost post_id
                                 (data (Form.title fm)) (data (Form.subtitle fm))
                                 (date p)
                                 (data (Form.body fm)) (data (Form.author fm))
                                 (data (Form.img_url fm))))),
          rows').
Proof.
  intros Hnd Hpos Hp Hv Hfree Hget.
  exists (url_for (ep_show_post post_id)), (map (overwrite post_id fm) rows).
  rewrite (serve_edit_post_found strip url_match req post_id rows now p Hp),
    Hv, Hfree. split; [reflexivity|].
  destruct (lookup_Some_inv _ _ _ Hp) as [_ Hid].
  unfold flask_app. rewrite (route_show_post _ Hpos).
  cbn [methods existsb view]. rewrite Hget. cbn [method_eqb orb].
  rewrite serve_show_post, scan_lookup.
  - rewrite lookup_overwrite, Hp. cbn [option_map]. unfold overwrite.
    rewrite (proj2 (Z.eqb_eq _ _) Hid), Hid. reflexivity.
  - rewrite map_map.
    rewrite (map_ext _ id (fun r => id_overwrite post_id fm r)). exact Hnd.
Qed.

Lemma edit_redirect_shows_update_witness :
  NoDup (map id two_posts)
  /\ (0 <= 1)%Z
  /\ lookup 1 two_posts = Some first_post
  /\ method get_request = GET
  /\ exists location rows',
       serve (edit_post ascii_strip http_url hello_request 1) one_post today
         = (inl (redirect location), rows')
       /\ fst (flask_app ascii_strip http_url location get_request rows' today)
          = answered (render_post
                        (Some (mkBlogPost 1 "Hello" "World" "03 01, 2021" "text"
                                          "A" "https://x.com/i.png"))).
Proof.
  assert (H : NoDup (map id two_posts)).
  { repeat constructor; cbn; intuition discriminate. }
  assert (H1 : NoDup (map id one_post)).
  { repeat constructor; cbn; intuition discriminate. }
  assert (Hz : (0 <= 1)%Z) by lia.
  split; [exact H|]. split; [exact Hz|]. split; [reflexivity|].
  split; [reflexivity|].
  destruct (edit_redirect_shows_update ascii_strip http_url
              hello_request get_request
              (snd (validate_on_submit ascii_strip http_url hello_request
                      (CreatePostForm hello_request
                         (title first_post) (subtitle first_post)
                         (author first_post) (img_url first_post)
                         (body first_post))))
              one_post today today 1 first_post H1 Hz eq_refl eq_refl eq_refl
              eq_refl) as [location [rows' [E1 E2]]].
  exists location, rows'. split.
  - exact E1.
  - rewrite E2. reflexivity.
Defined.

(** X17 (a field left out of a new post).  A request to [new_post]
    that does not carry one of the five fields is never accepted,
    whatever else it carries: the form is rendered again and the table
    is unchanged. *)
Theorem new_post_requires_every_field
    (strip : string -> string) (url_match : string -> bool)
    (req : request) (rows : list BlogPost) (now : datetime) (name : string) :
  In name ["title"; "subtitle"; "author"; "img_url"; "body"] ->
  formdata_get name (form req) = None ->
  exists fm,
    serve (new_post strip url_match req) rows now
    = (inl (render_make_post fm true), rows).
Proof.
  intros Hname Hnone. rewrite serve_new_post.
  destruct (validate_on_submit strip url_match req _) as [validated fm] eqn:Hv.
  destruct validated; [|now exists fm].
  exfalso.
  assert (Hfst : fst (validate_on_submit strip url_match req
                        (CreatePostForm req "" "" "" "" "")) = true)
    by now rewrite Hv.
  apply validate_on_submit_true in Hfst.
  destruct Hfst as [_ [_ [Ht [Hs [Ha [Hi [Hb _]]]]]]].
  unfold CreatePostForm in Ht, Hs, Ha, Hi, Hb.
  cbn [Form.title Form.subtitle Form.author Form.img_url Form.body]
    in Ht, Hs, Ha, Hi, Hb.
  cbn [In] in Hname.
  destruct Hname as [<-|[<-|[<-|[<-|[<-|[]]]]]];
    [apply Ht | apply Hs | apply Ha | apply Hi | apply Hb];
    now apply process_omitted.
Qed.

Lemma new_post_requires_every_field_witness :
  In "body" ["title"; "subtitle"; "author"; "img_url"; "body"]
  /\ formdata_get "body" (form token_only_request) = None
  /\ exists fm,
       serve (new_post ascii_strip http_url token_only_request) one_post today
       = (inl (render_make_post fm true), one_post).
Proof.
  assert (H : In "body" ["title"; "subtitle"; "author"; "img_url"; "body"]).
  { do 4 right. left. reflexivity. }
  split; [exact H|]. split; [reflexivity|].
  exact (new_post_requires_every_field ascii_strip http_url token_only_request
           one_post today "body" H eq_refl).
Defined.

(** X18 (a field left out of an edit).  [edit_post] pre-fills the form
    from the stored post, so a field that an accepted submission does
    not carry keeps its stored value: after the edit the post has, in
    each column the request left out, what it had before. *)
Theorem edit_post_omitted_field_kept
    (strip : string -> string) (url_match : string -> bool)
    (req : request) (fm : Form.CreatePostForm)
    (rows : list BlogPost) (now : datetime) (post_id : Z) (p : BlogPost) :
  lookup post_id rows = Some p ->
  validate_on_submit strip url_match req
    (CreatePostForm req (title p) (subtitle p) (author p) (img_url p) (body p))
    = (true, fm) ->
  title_taken_by_other post_id (data (Form.title fm)) rows = false ->
  exists p',
    lookup post_id (snd (serve (edit_post strip url_match req post_id) rows now))
      = Some p'
    /\ (formdata_get "title" (form req) = None -> title p' = title p)
    /\ (formdata_get "subtitle" (form req) = None -> subtitle p' = subtitle p)
    /\ (formdata_get "author" (form req) = None -> author p' = author p)
    /\ (formdata_get "img_url" (form req) = None -> img_url p' = img_url p)
    /\ (formdata_get "body" (form req) = None -> body p' = body p).
Proof.
  intros Hp Hv Hfree.
  rewrite (serve_edit_post_found strip url_match req post_id rows now p Hp),
    Hv, Hfree. cbn [snd].
  destruct (lookup_Some_inv _ _ _ Hp) as [_ Hid].
  exists (overwrite post_id fm p). split; [now rewrite lookup_overwrite, Hp|].
  destruct (validate_on_submit_keeps_data strip url_match req _ _ _ Hv)
    as [Et [Es [Ea [Ei Eb]]]].
  unfold CreatePostForm in Et, Es, Ea, Ei, Eb.
  cbn [Form.title Form.subtitle Form.author Form.img_url Form.body]
    in Et, Es, Ea, Ei, Eb.
  unfold overwrite. rewrite (proj2 (Z.eqb_eq _ _) Hid).
  cbn [title subtitle author img_url body].
  rewrite Et, Es, Ea, Ei, Eb.
  repeat split; intros H; now apply process_omitted.
Qed.

Lemma edit_post_omitted_field_kept_witness :
  lookup 1 two_posts = Some first_post
  /\ title_taken_by_other 1 "First" two_posts = false
  /\ serve (edit_post ascii_strip http_url token_only_request 1) two_posts today
     = (inl (redirect "/post/1"), two_posts)
  /\ exists p',
       lookup 1 (snd (serve (edit_post ascii_strip http_url token_only_request 1)
                        two_posts today)) = Some p'
       /\ (formdata_get "body" (form token_only_request) = None ->
           body p' = body first_post).
Proof.
  split; [reflexivity|]. split; [reflexivity|]. split; [reflexivity|].
  destruct (edit_post_omitted_field_kept ascii_strip http_url token_only_request
              (snd (validate_on_submit ascii_strip http_url token_only_request
                      (CreatePostForm token_only_request (title first_post)
                         (subtitle first_post) (author first_post)
                         (img_url first_post) (body first_post))))
              two_posts today 1 first_post eq_refl eq_refl eq_refl)
    as [p' [H1 [_ [_ [_ [_ H2]]]]]].
  exists p'. split; [exact H1 | exact H2].
Defined.

(** X19 (pages that always render).  A GET of the list, of a post page
    (stored id or not), of the about or of the contact page is always
    answered with the rendered page: these views raise nothing, never
    redirect and leave the table alone; the list page is given all
    stored posts in table order. *)
Theorem read_views_always_answer
    (strip : string -> string) (url_match : string -> bool)
    (path : string) (req : request) (rows : list BlogPost) (now : datetime)
    (e : endpoint) :
  method req = GET ->
  route path = Some e ->
  e <> ep_new_post ->
  (forall post_id, e <> ep_edit_post post_id /\ e <> ep_delete post_id) ->
  (exists page,
      flask_app strip url_match path req rows now = (answered page, rows)
      /\ forall location, page <> redirect location)
  /\ (e = ep_get_all_posts ->
      flask_app strip url_match path req rows now
      = (answered (render_index rows), rows)).
Proof.
  intros Hget Hroute Hnew Hother. unfold flask_app. rewrite Hroute.
  destruct e; cbn [methods existsb view]; rewrite Hget; cbn [method_eqb orb].
  - split; [|reflexivity]. exists (render_index rows).
    split; [reflexivity | discriminate].
  - split; [|discriminate]. exists (render_post (scan index rows)).
    split; [reflexivity | discriminate].
  - split; [|discriminate]. exists render_about.
    split; [reflexivity | discriminate].
  - split; [|discriminate]. exists render_contact.
    split; [reflexivity | discriminate].
  - exfalso. now apply (proj1 (Hother post_id)).
  - contradiction.
  - exfalso. now apply (proj2 (Hother post_id)).
Qed.

Lemma read_views_always_answer_witness :
  method get_request = GET
  /\ route "/post/99" = Some (ep_show_post 99)
  /\ flask_app ascii_strip http_url "/post/99" get_request two_posts today
     = (answered (render_post None), two_posts)
  /\ exists page,
       flask_app ascii_strip http_url "/post/99" get_request two_posts today
       = (answered page, two_posts)
       /\ forall location, page <> redirect location.
Proof.
  split; [reflexivity|]. split; [reflexivity|]. split; [reflexivity|].
  refine (proj1 (read_views_always_answer ascii_strip http_url "/post/99"
                   get_request two_posts today (ep_show_post 99) eq_refl
                   eq_refl _ _)).
  - discriminate.
  - intros post_id. split; discriminate.
Defined.



Section OrderFacts.

Lemma sorted_snoc (l : list Z) (a : Z) :
  StronglySorted Z.lt l -> (forall x, In x l -> (x < a)%Z) ->
  StronglySorted Z.lt (l ++ [a]).
Proof.
  induction l as [|y l IH]; cbn [List.app]; intros Hs Hlt.
  - constructor; [constructor | constructor].
  - apply StronglySorted_inv in Hs. destruct Hs as [Hs Hall].
    constructor.
    + apply IH; [exact Hs|]. intros x Hx. apply Hlt. now right.
    + apply Forall_app. split; [exact Hall|].
      constructor; [|constructor]. apply Hlt. now left.
Qed.

Lemma sorted_ids_filter (keep : BlogPost -> bool) (rows : list BlogPost) :
  StronglySorted Z.lt (map id rows) ->
  StronglySorted Z.lt (map id (filter keep rows)).
Proof.
  induction rows as [|r rows IH]; cbn [map filter]; intros Hs; [constructor|].
  apply StronglySorted_inv in Hs. destruct Hs as [Hs Hall].
  destruct (keep r); cbn [map]; [|now apply IH].
  constructor; [now apply IH|].
  apply Forall_forall. intros x Hx. apply in_map_iff in Hx.
  destruct Hx as [r' [<- Hin]]. apply filter_In in Hin.
  apply (proj1 (Forall_forall _ _) Hall). apply in_map. tauto.
Qed.

End OrderFacts.

(** X21 (table order).  The views keep the table in the order of its
    ids: if each stored post has an id above those of the posts before
    it, so it is after any request to any view; a post created is last
    and posts that are edited or that remain after a delete keep their
    place. *)
Theorem views_keep_rowid_order
    (strip : string -> string) (url_match : string -> bool)
    (e : endpoint) (req : request) (rows : list BlogPost) (now : datetime) :
  rowid_order rows ->
  rowid_order (snd (serve (view strip url_match e req) rows now)).
Proof.
  unfold rowid_order. intros Hs. destruct e; cbn [view]; try exact Hs.
  - destruct (lookup post_id rows) as [p|] eqn:Hp.
    + rewrite (serve_edit_post_found strip url_match req post_id rows now p Hp).
      destruct (validate_on_submit strip url_match req _) as [validated fm].
      destruct validated; [|exact Hs].
      destruct (title_taken_by_other post_id (data (Form.title fm)) rows);
        [exact Hs|].
      cbn [snd]. rewrite map_map.
      rewrite (map_ext _ id (fun r => id_overwrite post_id fm r)). exact Hs.
    + now rewrite serve_edit_post_missing.
  - rewrite serve_new_post.
    destruct (validate_on_submit strip url_match req _) as [validated fm].
    destruct validated; [|exact Hs].
    destruct (title_taken (data (Form.title fm)) rows); [exact Hs|].
    cbn [snd]. rewrite map_app. cbn [map insert_row id].
    apply sorted_snoc; [exact Hs|]. intros x Hx. now apply next_rowid_above.
  - destruct (lookup post_id rows) as [p|] eqn:Hp.
    + rewrite (serve_delete_found post_id rows now p Hp). cbn [snd].
      now apply sorted_ids_filter.
    + now rewrite serve_delete_missing.
Qed.

Lemma views_keep_rowid_order_witness :
  rowid_order two_posts
  /\ rowid_order (snd (serve (view ascii_strip http_url (ep_delete 1) get_request)
                         two_posts today)).
Proof.
  assert (H : rowid_order two_posts).
  { unfold rowid_order. cbn. repeat constructor. }
  split; [exact H|].
  exact (views_keep_rowid_order ascii_strip http_url (ep_delete 1) get_request
           two_posts today H).
Defined.

Section DateInvariant.

Variable strip : string -> string.
Variable url_match : string -> bool.

Lemma view_keeps_dates e req rows now :
  calendar_date now ->
  Forall (fun r => is_MM_DD_YYYY (date r) = true) rows ->
  Forall (fun r => is_MM_DD_YYYY (date r) = true)
         (snd (serve (view strip url_match e req) rows now)).
Proof.
  intros Hnow Hall. destruct e; cbn [view]; try exact Hall.
  - destruct (lookup post_id rows) as [p|] eqn:Hp.
    + rewrite (serve_edit_post_found strip url_match req post_id rows now p Hp).
      destruct (validate_on_submit strip url_match req _) as [validated fm].
      destruct validated; [|exact Hall].
      destruct (title_taken_by_other post_id (data (Form.title fm)) rows);
        [exact Hall|].
      cbn [snd]. apply Forall_forall. intros r Hin.
      apply in_map_iff in Hin. destruct Hin as [r0 [<- Hin]].
      pose proof (proj1 (Forall_forall _ _) Hall r0 Hin) as Hr0.
      unfold overwrite. now destruct (Z.eqb (id r0) post_id).
    + now rewrite serve_edit_post_missing.
  - rewrite serve_new_post.
    destruct (validate_on_submit strip url_match req _) as [validated fm].
    destruct validated; [|exact Hall].
    destruct (title_taken (data (Form.title fm)) rows); [exact Hall|].
    cbn [snd]. apply Forall_app. split; [exact Hall|].
    constructor; [|constructor]. cbn [insert_row date new_date].
    now apply strftime_shape.
  - destruct (lookup post_id rows) as [p|] eqn:Hp.
    + rewrite (serve_delete_found post_id rows now p Hp). cbn [snd].
      apply Forall_forall. intros r Hin. apply filter_In in Hin.
      now apply (proj1 (Forall_forall _ _) Hall).
    + now rewrite serve_delete_missing.
Qed.

End DateInvariant.

(** X22 (stored dates).  Every date in the table has the shape
    "MM DD, YYYY" and keeps it: if the stored dates have that shape,
    they still have it after any sequence of requests served at
    calendar dates, so all dates of a table built up from the empty one
    have it. *)
Theorem served_dates_well_formed
    (strip : string -> string) (url_match : string -> bool)
    (reqs : list (string * request * datetime)) (rows : list BlogPost) :
  Forall (fun served => calendar_date (snd served)) reqs ->
  Forall (fun r => is_MM_DD_YYYY (date r) = true) rows ->
  Forall (fun r => is_MM_DD_YYYY (date r) = true)
         (run_requests strip url_match reqs rows).
Proof.
  revert rows. induction reqs as [|[[path req] now] reqs IH];
    intros rows Htimes Hall; cbn [run_requests].
  - exact Hall.
  - apply Forall_cons_iff in Htimes. destruct Htimes as [Hnow Htimes].
    cbn [snd] in Hnow. apply IH; [exact Htimes|].
    unfold flask_app. destruct (route path) as [e|]; [|exact Hall].
    destruct (existsb _ _); [|exact Hall].
    pose proof (view_keeps_dates strip url_match e req rows now Hnow Hall) as H.
    now destruct (serve _ rows now) as [[r|x] rows'].
Qed.

Lemma served_dates_well_formed_witness :
  Forall (fun served : string * request * datetime => calendar_date (snd served))
         [("/new-post", hello_request, today);
          ("/edit_post/1", no_author_request, today)]
  /\ run_requests ascii_strip http_url
       [("/new-post", hello_request, today);
        ("/edit_post/1", no_author_request, today)] []
     = [mkBlogPost 1 "Hello" "World" "03 07, 2021" "text" "A" "https://x.com/i.png"]
  /\ Forall (fun r => is_MM_DD_YYYY (date r) = true)
            (run_requests ascii_strip http_url
               [("/new-post", hello_request, today);
                ("/edit_post/1", no_author_request, today)] []).
Proof.
  assert (Hd : calendar_date today).
  { unfold calendar_date, today. cbn [year month day]. lia. }
  assert (H : Forall (fun served : string * request * datetime =>
                        calendar_date (snd served))
                [("/new-post", hello_request, today);
                 ("/edit_post/1", no_author_request, today)]).
  { constructor; [exact Hd|]. constructor; [exact Hd|]. constructor. }
  split; [exact H|]. split; [reflexivity|].
  exact (served_dates_well_formed ascii_strip http_url _ [] H (Forall_nil _)).
Defined.
